(** * EcoSalvador: the report chat flow, the AI gateway and the dashboard

    A shallow embedding of the TypeScript sources:
    - [types.ts]                  the enumerations and records;
    - [services/geminiService.ts] the four gateway operations and their
                                  fallbacks;
    - [App.tsx]                   the dialogue controller: React state, event
                                  handlers, timers;
    - [components/Dashboard.tsx]  the derived views over the report list.

    Conventions.
    - A JavaScript [number] is a rational ([Q]): the numbers of this program
      come from JSON, from counters and from literals.  Counters are [nat].
      The binary64 rounding of a quotient is left out: [Num.toFixed1] rounds
      the exact quotient.
    - A JavaScript string is a [string] of UTF-8 bytes.
    - An optional field ([x?: T]) is an [option]; [a || b] is written with
      the truthiness of the source ([JS.orString], [JS.orNumber]).
    - A plain object used as a record of string keys is the list of its own
      properties in the order of their creation ([Obj]); what an empty
      object inherits is left out.
    - [Date.now()] and [new Date()] read a clock given by the environment:
      the k-th reading of a run is [clock k].
    - A handler is the script of commands it issues ([App.Cmd]); an event is
      handled to its end, the timers it sets included, before the next one
      ([App.runEvent]). *)

From Stdlib Require Import String Ascii List Bool Arith NArith ZArith QArith Qround Qabs Lia.
From Stdlib Require Import Permutation Sorted DecimalString DecimalN DecimalPos DecimalZ Lqa.
Import ListNotations.

Local Open Scope string_scope.
Local Open Scope list_scope.

(* ================================================================= *)
(** ** JavaScript values *)

Module JS.

(** [!!s] for a string: every string but the empty one is truthy. *)
Definition truthyString (s : string) : bool := negb (String.eqb s "").

(** [!!n] for a number: every number but 0 is truthy (JSON has no NaN). *)
Definition truthyNumber (n : Q) : bool := negb (Qeq_bool n 0%Q).

(** [a || b] where [a : string | undefined] and [b : string | undefined]. *)
Definition orOption (a b : option string) : option string :=
  match a with
  | Some s => if truthyString s then Some s else b
  | None => b
  end.

(** [a || b] where [a : string | undefined] and [b : string]. *)
Definition orString (a : option string) (b : string) : string :=
  match a with
  | Some s => if truthyString s then s else b
  | None => b
  end.

(** [a || b] where [a : number | undefined] and [b : number]. *)
Definition orNumber (a : option Q) (b : Q) : Q :=
  match a with
  | Some n => if truthyNumber n then n else b
  | None => b
  end.


(** [!!a] where [a : string | undefined]. *)
Definition truthyOption (a : option string) : bool :=
  match a with
  | Some s => truthyString s
  | None => false
  end.

(** [n.toString()] for an integral number (the result of [Date.now()]). *)
Definition toString (n : Z) : string := NilZero.string_of_int (Z.to_int n).

(** A string given by its bytes. *)
Definition bytes (l : list nat) : string :=
  string_of_list_ascii (List.map ascii_of_nat l).

(** The white space and line terminators that [String.prototype.trim]
    removes, in UTF-8: TAB, LF, VT, FF, CR, SP, U+00A0, U+1680, U+2000 to
    U+200A, U+2028, U+2029, U+202F, U+205F, U+3000 and U+FEFF. *)
Definition whiteSpaces : list string :=
  List.map bytes
    [ [9]; [10]; [11]; [12]; [13]; [32]; [194; 160]; [225; 154; 128];
      [226; 128; 128]; [226; 128; 129]; [226; 128; 130]; [226; 128; 131];
      [226; 128; 132]; [226; 128; 133]; [226; 128; 134]; [226; 128; 135];
      [226; 128; 136]; [226; 128; 137]; [226; 128; 138];
      [226; 128; 168]; [226; 128; 169]; [226; 128; 175]; [226; 129; 159];
      [227; 128; 128]; [239; 187; 191] ]%nat.

(** [s] without the prefix [p], when it starts with it. *)
Definition stripPrefix (p s : string) : option string :=
  if String.prefix p s
  then Some (String.substring (String.length p)
                              (String.length s - String.length p) s)
  else None.

(** [s] without the suffix [p], when it ends with it. *)
Definition stripSuffix (p s : string) : option string :=
  let n := (String.length s - String.length p)%nat in
  if (String.length p <=? String.length s)%nat
     && String.eqb (String.substring n (String.length p) s) p
  then Some (String.substring 0 n s)
  else None.

(** The first answer [f] gives on the elements of a list. *)
Fixpoint firstSome {A B : Type} (f : A -> option B) (l : list A) : option B :=
  match l with
  | [] => None
  | a :: l' => match f a with Some b => Some b | None => firstSome f l' end
  end.

(** One white space after the other taken off an end of the string; there
    are no more of them than bytes in the string. *)
Fixpoint stripAll (strip : string -> string -> option string) (fuel : nat)
         (s : string) : string :=
  match fuel with
  | O => s
  | S fuel' =>
      match firstSome (fun p => strip p s) whiteSpaces with
      | Some r => stripAll strip fuel' r
      | None => s
      end
  end.

Definition trimStart (s : string) : string :=
  stripAll stripPrefix (String.length s) s.

Definition trimEnd (s : string) : string :=
  stripAll stripSuffix (String.length s) s.

Definition trim (s : string) : string := trimEnd (trimStart s).

(** [xs.includes(x)] on an array of strings. *)
Definition includes (xs : list string) (x : string) : bool :=
  existsb (String.eqb x) xs.

(** The outcome of an expression that may throw. *)
Inductive Attempt (A : Type) : Type :=
| Ok (a : A)
| Thrown.
Arguments Ok {A} a.
Arguments Thrown {A}.

Definition bind {A B : Type} (m : Attempt A) (k : A -> Attempt B) : Attempt B :=
  match m with
  | Ok a => k a
  | Thrown => Thrown
  end.

(** [try { body } catch (e) { return handler }]. *)
Definition tryCatch {A : Type} (body : Attempt A) (handler : A) : A :=
  match body with
  | Ok a => a
  | Thrown => handler
  end.

End JS.

Import JS.

Notation "x <- m ;; k" := (JS.bind m (fun x => k))
  (at level 61, m at next level, right associativity).

(* ================================================================= *)
(** ** types.ts *)

Inductive Sender : Type := BOT | USER | SYSTEM.

Inductive ReportCategory : Type :=
| STRUCTURE | FLOODING | LANDSLIDE | INFRASTRUCTURE | INDOOR | EXTREME | OTHER.

(** The string value of each member of the enum. *)
Definition categoryValue (c : ReportCategory) : string :=
  match c with
  | STRUCTURE => "Rachaduras e Estruturas"
  | FLOODING => "Alagamentos e Enchentes"
  | LANDSLIDE => "Deslizamentos e Encostas"
  | INFRASTRUCTURE => "Riscos em Infraestrutura"
  | INDOOR => "Dentro de Casa"
  | EXTREME => "Sinais Climáticos Extremos"
  | OTHER => "Outro"
  end.

(** [Object.values(ReportCategory)]. *)
Definition ReportCategory_values : list string :=
  map categoryValue
      [STRUCTURE; FLOODING; LANDSLIDE; INFRASTRUCTURE; INDOOR; EXTREME; OTHER].

Module QuickReplyOption.
Record t : Type := mk { label : string; value : string }.
End QuickReplyOption.

Module Message.
Record t : Type := mk {
  id : string;
  sender : Sender;
  text : string;
  timestamp : Z;
  isQuickReply : bool;
  options : option (list QuickReplyOption.t);
  isLocationRequest : bool;
  image : option string
}.
End Message.

Module Coordinates.
Record t : Type := mk { lat : Q; lng : Q }.
End Coordinates.

Inductive ReportStatus : Type := pending | verified | resolved.

Module Report.
Record t : Type := mk {
  id : string;
  category : string;
  subcategory : option string;
  description : string;
  location : Coordinates.t;
  neighborhood : option string;
  timestamp : Z;
  severity : Q;
  aiAnalysis : string;
  status : ReportStatus;
  imageUrl : option string
}.
End Report.

Module AiResponse.
Record t : Type := mk { text : string; severity : Q }.
End AiResponse.

Module LocationExtractionResponse.
Record t : Type := mk {
  neighborhood : string;
  coordinates : Coordinates.t;
  confirmationText : string
}.
End LocationExtractionResponse.

(* ================================================================= *)
(** ** services/geminiService.ts *)

Module GeminiService.

(** What a prompt of the service is built from: each template interpolates
    exactly these strings. *)
Inductive Prompt : Type :=
| AnalyzePrompt (selectedCategory description : string)
| LocationPrompt (text : string)
| GreetingPrompt
| CategoryPrompt (text : string).

(** The response of [ai.models.generateContent]: [response.text] is a
    string or undefined. *)
Record GenerateContentResponse : Type := { text : option string }.

Definition analyzeFallback : AiResponse.t :=
  {| AiResponse.text :=
       "Entendido. Por favor, compartilhe a localização para que possamos registrar a ocorrência.";
     AiResponse.severity := 3%Q |}.

Definition locationFallback : LocationExtractionResponse.t :=
  {| LocationExtractionResponse.neighborhood := "Salvador (Centro)";
     LocationExtractionResponse.coordinates :=
       {| Coordinates.lat := ((-129777) # 10000)%Q;
          Coordinates.lng := ((-385016) # 10000)%Q |};
     LocationExtractionResponse.confirmationText :=
       "Não consegui identificar o local exato pelo texto. Usarei o centro da cidade como referência." |}.

Definition greetingFallback : string :=
  "Olá! 🤖 Sou o EcoSalvador, seu assistente virtual inteligente. Utilizo IA e geolocalização para monitorar e registrar problemas ambientais em nossa cidade 🌍. Como posso ajudar você hoje?".

Section Transport.

(** The transport: the call either throws (network, quota, key) or
    yields a response. *)
Variable generateContent : Prompt -> Attempt GenerateContentResponse.

(** [JSON.parse(jsonText) as T]: [Thrown] on a syntax error; the cast is
    not checked by the source, the parsed value is taken to have the
    shape of [T]. *)
Variable parseAiResponse : string -> Attempt AiResponse.t.
Variable parseLocation : string -> Attempt LocationExtractionResponse.t.

(** [if (!jsonText) throw new Error(...)]. *)
Definition requireText (jsonText : option string) : Attempt string :=
  match jsonText with
  | Some s => if truthyString s then Ok s else Thrown
  | None => Thrown
  end.

Definition analyzeReportDescription (description selectedCategory : string)
  : AiResponse.t :=
  tryCatch
    (response <- generateContent (AnalyzePrompt selectedCategory description) ;;
     jsonText <- requireText response.(text) ;;
     parseAiResponse jsonText)
    analyzeFallback.

Definition extractLocationFromText (text0 : string)
  : LocationExtractionResponse.t :=
  tryCatch
    (response <- generateContent (LocationPrompt text0) ;;
     jsonText <- requireText response.(text) ;;
     parseLocation jsonText)
    locationFallback.

Definition generateInitialGreeting : string :=
  tryCatch
    (response <- generateContent GreetingPrompt ;;
     Ok (orString response.(text) greetingFallback))
    greetingFallback.

Definition inferCategoryFromText (text0 : string) : option string :=
  tryCatch
    (response <- generateContent (CategoryPrompt text0) ;;
     let result := option_map trim response.(text) in
     let validCategories := ReportCategory_values in
     match result with
     | Some r =>
         if truthyString r && includes validCategories r
         then Ok (Some r) else Ok None
     | None => Ok None
     end)
    None.

End Transport.

(** A transport call fails when it throws or when the text of its response
    is undefined or empty. *)
Definition transportFails (r : Attempt GenerateContentResponse) : Prop :=
  r = Thrown \/ r = Ok {| text := None |} \/ r = Ok {| text := Some "" |}.

End GeminiService.

(* ================================================================= *)
(** ** Numbers as text: [toFixed(1)] and [parseFloat] *)

Module Num.

(** The decimal digits of a natural number, as [String(n)] writes them. *)
Definition digits (n : N) : string := NilZero.string_of_uint (N.to_uint n).

(** [x < y] on numbers. *)
Definition ltb (x y : Q) : bool := negb (Qle_bool y x).

(** The integer [n] for which [n / 10 - x] is as close to zero as possible,
    the larger one when there are two ([x] not negative). *)
Definition tenths (x : Q) : N := Z.to_N (Qfloor (x * 10 + (1 # 2))).

(** [x.toFixed(1)] (Number.prototype.toFixed with one fraction digit, below
    the 1e21 bound where the exponent form takes over): the sign, then the
    digits of [n] with a point before the last one. *)
Definition toFixed1 (x : Q) : string :=
  let s := if ltb x 0 then "-" else "" in
  let n := tenths (Qabs x) in
  s ++ digits (n / 10) ++ "." ++ digits (n mod 10).

Fixpoint beforePoint (s : string) : string :=
  match s with
  | EmptyString => EmptyString
  | String c r => if Ascii.eqb c "." then EmptyString else String c (beforePoint r)
  end.

Fixpoint afterPoint (s : string) : option string :=
  match s with
  | EmptyString => None
  | String c r => if Ascii.eqb c "." then Some r else afterPoint r
  end.

Definition natural (s : string) : option N :=
  option_map N.of_uint (NilZero.uint_of_string s).

(** An unsigned decimal: digits, then possibly a point and digits. *)
Definition unsignedDecimal (s : string) : option Q :=
  match natural (beforePoint s), afterPoint s with
  | Some i, None => Some (inject_Z (Z.of_N i))
  | Some i, Some f =>
      match natural f with
      | Some j =>
          Some (inject_Z (Z.of_N i)
                + inject_Z (Z.of_N j) / inject_Z (10 ^ Z.of_nat (String.length f)))
      | None => None
      end
  | None, _ => None
  end.

(** [parseFloat(s)] on signed decimals without exponent; [None] is NaN. *)
Definition parseFloat (s : string) : option Q :=
  match s with
  | String "-" r => option_map Qopp (unsignedDecimal r)
  | String "+" r => unsignedDecimal r
  | _ => unsignedDecimal s
  end.

(** [a - b] where either side may be NaN, as a sort comparator reads it:
    NaN counts as 0. *)
Definition minus (a b : option Q) : Q :=
  match a, b with
  | Some x, Some y => x - y
  | _, _ => 0
  end.

End Num.

(* ================================================================= *)
(** ** Plain objects used as string-keyed records, and [Array.prototype.sort] *)

Module Obj.

(** The own properties of an object, in the order of their creation. *)
Definition t (V : Type) : Type := list (string * V).

Definition empty {V : Type} : t V := [].

(** [o[k]]. *)
Fixpoint get {V : Type} (o : t V) (k : string) : option V :=
  match o with
  | [] => None
  | (k', v) :: o' => if String.eqb k k' then Some v else get o' k
  end.

(** [o[k] = v]: an existing property keeps its place, a new one is added
    last. *)
Fixpoint set {V : Type} (o : t V) (k : string) (v : V) : t V :=
  match o with
  | [] => [(k, v)]
  | (k', v') :: o' =>
      if String.eqb k k' then (k', v) :: o' else (k', v') :: set o' k v
  end.

(** A key is an array index when it is the canonical text of an integer
    below 2^32 - 1. *)
Definition arrayIndex (k : string) : option N :=
  match Num.natural k with
  | Some n =>
      if String.eqb (Num.digits n) k && (n <? 4294967295)%N then Some n else None
  | None => None
  end.

Fixpoint insertIndex {V : Type} (n : N) (e : string * V)
         (l : list (N * (string * V))) : list (N * (string * V)) :=
  match l with
  | [] => [(n, e)]
  | (m, e') :: l' =>
      if (n <? m)%N then (n, e) :: l else (m, e') :: insertIndex n e l'
  end.

Fixpoint indexed {V : Type} (o : t V) : list (N * (string * V)) :=
  match o with
  | [] => []
  | (k, v) :: o' =>
      match arrayIndex k with
      | Some n => insertIndex n (k, v) (indexed o')
      | None => indexed o'
      end
  end.

Fixpoint named {V : Type} (o : t V) : t V :=
  match o with
  | [] => []
  | (k, v) :: o' =>
      match arrayIndex k with
      | Some _ => named o'
      | None => (k, v) :: named o'
      end
  end.

(** [Object.entries(o)]: the array-index keys in ascending numeric order,
    then the other keys in the order of their creation. *)
Definition entries {V : Type} (o : t V) : list (string * V) :=
  map snd (indexed o) ++ named o.

End Obj.

Module Array.

Section Sort.
Context {A : Type}.
(** [cmp a b > 0] asks for [a] after [b]. *)
Variable cmp : A -> A -> Q.

Fixpoint insert (x : A) (l : list A) : list A :=
  match l with
  | [] => [x]
  | y :: l' => if Num.ltb 0 (cmp x y) then y :: insert x l' else x :: l
  end.

(** [l.sort(cmp)]: the sort of the language is stable, which fixes its
    result for a consistent comparator; here by insertion, each element
    going past those it has to follow and no further. *)
Definition sort (l : list A) : list A := fold_right insert [] l.
End Sort.

End Array.

(* ================================================================= *)
(** ** components/Dashboard.tsx *)

Module Dashboard.

Module Stat.
Record t : Type := mk { total : nat; sumSeverity : Q; count : nat }.
End Stat.

Module Risk.
Record t : Type := mk { name : string; riskScore : string; totalReports : nat }.
End Risk.

Module CategoryDatum.
Record t : Type := mk { name : string; fullName : string; value : nat }.
End CategoryDatum.

Module SeverityDatum.
Record t : Type := mk { name : string; value : nat; color : string }.
End SeverityDatum.

Definition COLORS_primary : string := "#008069".
Definition COLORS_warning : string := "#eab308".
Definition COLORS_danger : string := "#ef4444".

(** A counter as a number. *)
Definition num (n : nat) : Q := inject_Z (Z.of_nat n).

(** The body of the [forEach] of [neighborhoodRisks]. *)
Definition addToStats (stats : Obj.t Stat.t) (r : Report.t) : Obj.t Stat.t :=
  let hood := orString r.(Report.neighborhood) "Desconhecido" in
  let stats :=
    match Obj.get stats hood with
    | None => Obj.set stats hood (Stat.mk 0 0 0)
    | Some _ => stats
    end in
  match Obj.get stats hood with
  | Some d =>
      Obj.set stats hood
        (Stat.mk (S d.(Stat.total))
                 (d.(Stat.sumSeverity) + r.(Report.severity))
                 (S d.(Stat.count)))
  | None => stats
  end.

Definition neighborhoodStats (reports : list Report.t) : Obj.t Stat.t :=
  fold_left addToStats reports Obj.empty.

Definition riskRow (e : string * Stat.t) : Risk.t :=
  let (name, data) := e in
  {| Risk.name := name;
     Risk.riskScore :=
       Num.toFixed1 (data.(Stat.sumSeverity) / num data.(Stat.count));
     Risk.totalReports := data.(Stat.total) |}.

Definition byRiskDescending (a b : Risk.t) : Q :=
  Num.minus (Num.parseFloat b.(Risk.riskScore)) (Num.parseFloat a.(Risk.riskScore)).

Definition neighborhoodRisks (reports : list Report.t) : list Risk.t :=
  Array.sort byRiskDescending
    (map riskRow (Obj.entries (neighborhoodStats reports))).








(** The counters [low], [medium], [high] after the [forEach] of
    [severityData]. *)
Definition countSeverity (acc : nat * nat * nat) (r : Report.t) : nat * nat * nat :=
  let '(low, medium, high) := acc in
  if Qle_bool 4 r.(Report.severity) then (low, medium, S high)
  else if Qeq_bool r.(Report.severity) 3 then (low, S medium, high)
  else (S low, medium, high).

Definition severityCounts (reports : list Report.t) : nat * nat * nat :=
  fold_left countSeverity reports (0, 0, 0)%nat.

Definition severityData (reports : list Report.t) : list SeverityDatum.t :=
  let '(low, medium, high) := severityCounts reports in
  filter (fun d => (0 <? d.(SeverityDatum.value))%nat)
    [ SeverityDatum.mk "Baixo (1-2)" low COLORS_primary;
      SeverityDatum.mk "Médio (3)" medium COLORS_warning;
      SeverityDatum.mk "Crítico (4-5)" high COLORS_danger ].

Definition totalReports (reports : list Report.t) : nat := List.length reports.

Definition criticalReports (reports : list Report.t) : nat :=
  List.length (filter (fun r => Qle_bool 4 r.(Report.severity)) reports).


(** The centre of the city, where the map starts. *)
Definition center : Coordinates.t :=
  Coordinates.mk ((-129777) # 10000) ((-385016) # 10000).

(** [reports.length > 0 ? reports[reports.length - 1] : null]. *)
Definition lastReport (reports : list Report.t) : option Report.t :=
  if (0 <? List.length reports)%nat
  then nth_error reports (List.length reports - 1)
  else None.

Definition mapCenter (reports : list Report.t) : Coordinates.t :=
  match lastReport reports with
  | Some r => r.(Report.location)
  | None => center
  end.

Definition getSeverityColor (severity : Q) : string :=
  if Qle_bool 4 severity then "bg-red-500 text-white"
  else if Qeq_bool severity 3 then "bg-yellow-500 text-white"
  else "bg-green-500 text-white".

(** The label of a severity in the list of the latest reports (the second
    dashboard component of the file). *)
Definition getSeverityLabel (severity : Q) : string :=
  if Qle_bool 4 severity then "Crítico"
  else if Qeq_bool severity 3 then "Médio"
  else "Baixo".

(** [reports.slice().reverse()]: the latest report first. *)
Definition latestFirst (reports : list Report.t) : list Report.t := rev reports.



(** The status line over the map. *)
Definition cityStatus (reports : list Report.t) : string :=
  if (0 <? criticalReports reports)%nat then "Alerta Ativo"
  else "Monitoramento Normal".

End Dashboard.

(* ================================================================= *)
(** ** components/ChatInterface.tsx *)

Module ChatInterface.

(** The state of the input area: the text typed and the image chosen. *)
Record Form : Type := mkForm { input : string; selectedImage : option string }.

(** [handleSubmit]: what is passed to [onSendMessage], if anything, and the
    form afterwards. *)
Definition handleSubmit (f : Form) : option (string * option string) * Form :=
  if truthyString (trim f.(input)) || truthyOption f.(selectedImage)
  then (Some (f.(input),
              if truthyOption f.(selectedImage) then f.(selectedImage) else None),
        mkForm "" None)
  else (None, f).

(** What the user does on the map picker: a click on the map, or a press on
    the confirm button. *)
Inductive PickerAction : Type :=
| click (latlng : Coordinates.t)
| confirm.

(** [LocationPickerMap]: the position marked so far, and the coordinates
    passed to [onSelect]; the button calls [onSelect] only with a
    position. *)
Definition pickerStep (st : option Coordinates.t * list Coordinates.t)
           (a : PickerAction) : option Coordinates.t * list Coordinates.t :=
  let (position, selected) := st in
  match a with
  | click latlng =>
      (Some (Coordinates.mk latlng.(Coordinates.lat) latlng.(Coordinates.lng)),
       selected)
  | confirm =>
      match position with
      | Some p => (position, selected ++ [p])
      | None => (position, selected)
      end
  end.

Definition picker (actions : list PickerAction)
  : option Coordinates.t * list Coordinates.t :=
  fold_left pickerStep actions (None, []).

End ChatInterface.

(* ================================================================= *)
(** ** App.tsx: state, commands and their execution *)

Module App.

Definition MAIN_CATEGORIES : list QuickReplyOption.t :=
  [ QuickReplyOption.mk "🏚️ Rachaduras e Estruturas" (categoryValue STRUCTURE);
    QuickReplyOption.mk "🌧️ Alagamentos e Enchentes" (categoryValue FLOODING);
    QuickReplyOption.mk "🌋 Deslizamentos e Encostas" (categoryValue LANDSLIDE);
    QuickReplyOption.mk "🛣️ Infraestrutura Urbana" (categoryValue INFRASTRUCTURE);
    QuickReplyOption.mk "🏠 Dentro de Casa" (categoryValue INDOOR);
    QuickReplyOption.mk "🌪️ Sinais Extremos" (categoryValue EXTREME) ].

Definition SUB_CATEGORIES : Obj.t (list QuickReplyOption.t) :=
  [ (categoryValue STRUCTURE,
      [ QuickReplyOption.mk "Rachaduras em parede" "Rachaduras em parede";
        QuickReplyOption.mk "Rachaduras no chão" "Rachaduras no chão ou solo";
        QuickReplyOption.mk "Muro inclinando" "Muro inclinando";
        QuickReplyOption.mk "Poste torto" "Poste torto ou prestes a cair";
        QuickReplyOption.mk "Portas/janelas travando" "Portas e janelas travando" ]);
    (categoryValue FLOODING,
      [ QuickReplyOption.mk "Bueiro entupido" "Bueiro entupido";
        QuickReplyOption.mk "Água acumulada na rua" "Água acumulada na rua";
        QuickReplyOption.mk "Alagamento em casa" "Alagamento dentro de casa";
        QuickReplyOption.mk "Ralo retornando" "Ralo retornando água";
        QuickReplyOption.mk "Esgoto transbordando" "Esgoto transbordando" ]);
    (categoryValue LANDSLIDE,
      [ QuickReplyOption.mk "Terra deslizando" "Terra deslizando";
        QuickReplyOption.mk "Poeira saindo do barranco" "Poeira saindo do barranco";
        QuickReplyOption.mk "Fenda no solo" "Fenda no solo";
        QuickReplyOption.mk "Árvore inclinando" "Árvore inclinando em encosta";
        QuickReplyOption.mk "Barulho de terra" "Barulho de terra rompendo" ]);
    (categoryValue INFRASTRUCTURE,
      [ QuickReplyOption.mk "Buraco grande na rua" "Buraco grande na rua";
        QuickReplyOption.mk "Cratera se formando" "Cratera se formando";
        QuickReplyOption.mk "Ponte com rachaduras" "Ponte com rachaduras";
        QuickReplyOption.mk "Calçada cedendo" "Calçada cedendo";
        QuickReplyOption.mk "Erosão perto de casas" "Erosão perto de casas" ]);
    (categoryValue INDOOR,
      [ QuickReplyOption.mk "Infiltração na parede" "Infiltração na parede";
        QuickReplyOption.mk "Mofo repentino" "Mofo repentino";
        QuickReplyOption.mk "Vazamento no teto" "Vazamento no teto";
        QuickReplyOption.mk "Piso estufando" "Piso estufando";
        QuickReplyOption.mk "Azulejos soltando" "Azulejos soltando" ]);
    (categoryValue EXTREME,
      [ QuickReplyOption.mk "Chuva muito forte" "Chuva muito forte";
        QuickReplyOption.mk "Vento forte/Destruição" "Vento forte derrubando objetos";
        QuickReplyOption.mk "Rio subindo" "Rio subindo rapidamente";
        QuickReplyOption.mk "Cheiro forte bueiro" "Cheiro forte vindo dos bueiros";
        QuickReplyOption.mk "Água barrenta" "Água barrenta surgindo" ]) ].

Inductive FlowStep : Type :=
| GREETING
| CATEGORY_SELECTION
| SUBCATEGORY_SELECTION
| DESCRIPTION
| LOCATION_METHOD_SELECTION
| LOCATION_INPUT_TEXT
| LOCATION_INPUT_MAP
| COMPLETED.

Inductive View : Type := chat | dashboard.

(** [tempReportData : Partial<Report>], with the fields the controller
    ever writes. *)
Module Draft.
Record t : Type := mk {
  category : option string;
  subcategory : option string;
  description : option string;
  severity : option Q;
  aiAnalysis : option string;
  imageUrl : option string
}.

(** [{}]. *)
Definition empty : t := mk None None None None None None.

(** [{ ...prev, imageUrl: image }]. *)
Definition withImageUrl (image : string) (prev : t) : t :=
  mk prev.(category) prev.(subcategory) prev.(description)
     prev.(severity) prev.(aiAnalysis) (Some image).

(** [{ ...prev, subcategory: value }]. *)
Definition withSubcategory (value : string) (prev : t) : t :=
  mk prev.(category) (Some value) prev.(description)
     prev.(severity) prev.(aiAnalysis) prev.(imageUrl).

(** [{ ...prev, severity: ..., aiAnalysis: ... }]. *)
Definition withAnalysis (analysis : AiResponse.t) (prev : t) : t :=
  mk prev.(category) prev.(subcategory) prev.(description)
     (Some analysis.(AiResponse.severity)) (Some analysis.(AiResponse.text))
     prev.(imageUrl).

(** [{ ...prev, description: ..., severity: ..., aiAnalysis: ... }]. *)
Definition withDescription (fullDescription : string) (analysis : AiResponse.t)
           (prev : t) : t :=
  mk prev.(category) prev.(subcategory) (Some fullDescription)
     (Some analysis.(AiResponse.severity)) (Some analysis.(AiResponse.text))
     prev.(imageUrl).
End Draft.

(** The state hooks of the component. *)
Record State : Type := mkState {
  view : View;
  messages : list Message.t;
  reports : list Report.t;
  currentStep : FlowStep;
  tempReportData : Draft.t;
  isTyping : bool;
  waitingForLocation : bool;
  showMapPicker : bool
}.

Definition initialState : State :=
  mkState chat [] [] GREETING Draft.empty false false false.

Definition stepEqb (a b : FlowStep) : bool :=
  match a, b with
  | GREETING, GREETING
  | CATEGORY_SELECTION, CATEGORY_SELECTION
  | SUBCATEGORY_SELECTION, SUBCATEGORY_SELECTION
  | DESCRIPTION, DESCRIPTION
  | LOCATION_METHOD_SELECTION, LOCATION_METHOD_SELECTION
  | LOCATION_INPUT_TEXT, LOCATION_INPUT_TEXT
  | LOCATION_INPUT_MAP, LOCATION_INPUT_MAP
  | COMPLETED, COMPLETED => true
  | _, _ => false
  end.

(** What a handler asks of React and of the timers, in program order.
    [addMessage] is the helper of the component; the [set...] commands are
    the setters of the state hooks; [appendReport mk] stands for building
    the report with a fresh id and date and then
    [setReports(prev => [...prev, newReport])]. *)
#[local] Set Warnings "-register-all".
Inductive Cmd : Type :=
| addMessage (text : string) (sender : Sender) (isQuickReply : bool)
             (options : option (list QuickReplyOption.t))
             (isLocationRequest : bool) (image : option string)
| appendReport (newReport : string -> Z -> Report.t)
| setView (v : View)
| setCurrentStep (step : FlowStep)
| setTempReportData (update : Draft.t -> Draft.t)
| setIsTyping (b : bool)
| setWaitingForLocation (b : bool)
| setShowMapPicker (b : bool)
| setTimeout (callback : list Cmd) (ms : nat).

(** The component together with the number of clock readings made so
    far. *)
Record World : Type := mkWorld { state : State; clockReads : nat }.

Definition initialWorld : World := mkWorld initialState 0.

(** A timer waiting to fire: when it is due, and its callback. *)
Definition Timer : Type := (nat * list Cmd)%type.

(** Number of [setTimeout] calls a script can make, callbacks included. *)
Fixpoint timeouts (c : Cmd) : nat :=
  match c with
  | setTimeout callback _ => S (list_sum (map timeouts callback))
  | _ => 0
  end.

Definition pendingTimeouts (pending : list Timer) : nat :=
  list_sum (map (fun t : Timer => S (list_sum (map timeouts (snd t)))) pending).

(** The timer that fires next: the earliest one, and among those due at
    the same time the one set first. *)
Fixpoint nextTimer (pending : list Timer) : option (Timer * list Timer) :=
  match pending with
  | [] => None
  | t :: rest =>
      match nextTimer rest with
      | Some (t', rest') =>
          if (fst t' <? fst t)%nat then Some (t', t :: rest') else Some (t, rest)
      | None => Some (t, rest)
      end
  end.

Section Execution.

(** The k-th reading of the clock, in milliseconds. *)
Variable clock : nat -> Z.

Definition onState (f : State -> State) (w : World) : World :=
  mkWorld (f w.(state)) w.(clockReads).

(** The object [newMessage] of [addMessage], built at the k-th reading
    of the clock: [Date.now()] for the id, then [new Date()]. *)
Definition newMessage (k : nat) (text : string) (sender : Sender)
           (isQuickReply : bool) (options : option (list QuickReplyOption.t))
           (isLocationRequest : bool) (image : option string) : Message.t :=
  {| Message.id := JS.toString (clock k);
     Message.sender := sender;
     Message.text := text;
     Message.timestamp := clock (S k);
     Message.isQuickReply := isQuickReply;
     Message.options := options;
     Message.isLocationRequest := isLocationRequest;
     Message.image := image |}.

(** One command, run at time [t] of the event. *)
Definition runCmd (t : nat) (c : Cmd) (w : World) (pending : list Timer)
  : World * list Timer :=
  let s := w.(state) in
  match c with
  | addMessage text sender isQuickReply options isLocationRequest image =>
      let newMessage :=
        newMessage w.(clockReads) text sender isQuickReply options
                   isLocationRequest image in
      (mkWorld
         (mkState s.(view) (s.(messages) ++ [newMessage]) s.(reports)
                  s.(currentStep) s.(tempReportData) s.(isTyping)
                  s.(waitingForLocation) s.(showMapPicker))
         (S (S w.(clockReads))),
       pending)
  | appendReport newReport =>
      let r := newReport (JS.toString (clock w.(clockReads)))
                         (clock (S w.(clockReads))) in
      (mkWorld
         (mkState s.(view) s.(messages) (s.(reports) ++ [r])
                  s.(currentStep) s.(tempReportData) s.(isTyping)
                  s.(waitingForLocation) s.(showMapPicker))
         (S (S w.(clockReads))),
       pending)
  | setView v =>
      (onState (fun s => mkState v s.(messages) s.(reports) s.(currentStep)
                           s.(tempReportData) s.(isTyping)
                           s.(waitingForLocation) s.(showMapPicker)) w,
       pending)
  | setCurrentStep step =>
      (onState (fun s => mkState s.(view) s.(messages) s.(reports) step
                           s.(tempReportData) s.(isTyping)
                           s.(waitingForLocation) s.(showMapPicker)) w,
       pending)
  | setTempReportData update =>
      (onState (fun s => mkState s.(view) s.(messages) s.(reports)
                           s.(currentStep) (update s.(tempReportData))
                           s.(isTyping) s.(waitingForLocation)
                           s.(showMapPicker)) w,
       pending)
  | setIsTyping b =>
      (onState (fun s => mkState s.(view) s.(messages) s.(reports)
                           s.(currentStep) s.(tempReportData) b
                           s.(waitingForLocation) s.(showMapPicker)) w,
       pending)
  | setWaitingForLocation b =>
      (onState (fun s => mkState s.(view) s.(messages) s.(reports)
                           s.(currentStep) s.(tempReportData) s.(isTyping)
                           b s.(showMapPicker)) w,
       pending)
  | setShowMapPicker b =>
      (onState (fun s => mkState s.(view) s.(messages) s.(reports)
                           s.(currentStep) s.(tempReportData) s.(isTyping)
                           s.(waitingForLocation) b) w,
       pending)
  | setTimeout callback ms => (w, pending ++ [((t + ms)%nat, callback)])
  end.

(** A script run to its end at time [t]; the timers it sets are added to
    the pending ones. *)
Fixpoint runScript (t : nat) (script : list Cmd) (w : World)
         (pending : list Timer) : World * list Timer :=
  match script with
  | [] => (w, pending)
  | c :: script' =>
      let (w', pending') := runCmd t c w pending in
      runScript t script' w' pending'
  end.

(** The pending timers fired one after the other until none is left;
    every firing uses one unit of [fuel]. *)
Fixpoint fireTimers (fuel : nat) (pending : list Timer) (w : World) : World :=
  match fuel with
  | O => w
  | S fuel' =>
      match nextTimer pending with
      | None => w
      | Some ((due, callback), rest) =>
          let (w', pending') := runScript due callback w rest in
          fireTimers fuel' pending' w'
      end
  end.

(** A handler's script run at an event, together with the timers it
    sets, with no other event in between. *)
Definition runEvent (script : list Cmd) (w : World) : World :=
  let (w', pending) := runScript 0 script w [] in
  fireTimers (pendingTimeouts pending) pending w'.

End Execution.

(** What the device answers to [getCurrentPosition], when the page asks
    for it: no geolocation at all, a position, or an error. *)
Inductive Geolocation : Type :=
| unsupported
| position (latitude longitude : Q)
| positionError.

Inductive LocationMethod : Type := gps | map | text.

Section Handlers.

(** The environment of the service (see [GeminiService]). *)
Variable generateContent :
  GeminiService.Prompt -> Attempt GeminiService.GenerateContentResponse.
Variable parseAiResponse : string -> Attempt AiResponse.t.
Variable parseLocation : string -> Attempt LocationExtractionResponse.t.

Definition analyzeReportDescription : string -> string -> AiResponse.t :=
  GeminiService.analyzeReportDescription generateContent parseAiResponse.
Definition extractLocationFromText : string -> LocationExtractionResponse.t :=
  GeminiService.extractLocationFromText generateContent parseLocation.
Definition generateInitialGreeting : string :=
  GeminiService.generateInitialGreeting generateContent.
Definition inferCategoryFromText : string -> option string :=
  GeminiService.inferCategoryFromText generateContent.

(** Every handler below is a closure of one render: it reads
    [currentStep] and [tempReportData] as they were when the event
    arrived (the argument [s] or [tempReportData0]), and writes through
    the setters.  An awaited promise is followed by its continuation in
    place; an awaited delay and a [setTimeout] are timers. *)

Definition processBotResponse (s : State) : list Cmd :=
  [ setIsTyping true;
    setTimeout
      ((if stepEqb s.(currentStep) GREETING
        then
          let greeting := generateInitialGreeting in
          [ addMessage greeting BOT false None false None;
            setTimeout
              [ addMessage
                  "Selecione a categoria que melhor descreve o que você está observando:"
                  BOT true (Some MAIN_CATEGORIES) false None;
                setCurrentStep CATEGORY_SELECTION ]
              2000 ]
        else [])
       ++ [ setIsTyping false ])
      1000 ].

(** The effect of the first render. *)
Definition onMount (s : State) : list Cmd :=
  if (List.length s.(messages) =? 0)%nat then processBotResponse s else [].

(** The object literal [newReport] of [finalizeReport], given the two
    clock readings it makes. *)
Definition newReport (tempReportData0 : Draft.t) (coords : Coordinates.t)
           (neighborhood : option string) (id : string) (timestamp : Z)
  : Report.t :=
  {| Report.id := id;
     Report.category :=
       orString tempReportData0.(Draft.category) (categoryValue OTHER);
     Report.subcategory := tempReportData0.(Draft.subcategory);
     Report.description :=
       orString (orOption tempReportData0.(Draft.description)
                          tempReportData0.(Draft.subcategory))
                "Sem descrição detalhada";
     Report.location := coords;
     Report.neighborhood := neighborhood;
     Report.timestamp := timestamp;
     Report.severity := orNumber tempReportData0.(Draft.severity) 1;
     Report.aiAnalysis :=
       orString tempReportData0.(Draft.aiAnalysis) "Sem análise";
     Report.status := pending;
     Report.imageUrl := tempReportData0.(Draft.imageUrl) |}.

Definition finalizeReport (tempReportData0 : Draft.t) (coords : Coordinates.t)
           (neighborhood : option string) : list Cmd :=
  [ appendReport (newReport tempReportData0 coords neighborhood);
    setIsTyping true;
    setTimeout
      [ addMessage
          "✅ Denúncia registrada e analisada pela IA. O local foi adicionado ao mapa de risco."
          BOT false None false None;
        addMessage "O que deseja fazer agora?" BOT true
          (Some [ QuickReplyOption.mk "Nova denúncia" "NEW_REPORT";
                  QuickReplyOption.mk "Ver Mapa de Risco" "VIEW_MAP" ])
          false None;
        setCurrentStep COMPLETED;
        setIsTyping false ]
      1000 ].

Definition handleUserMessage (s : State) (text0 : string)
           (image : option string) : list Cmd :=
  (match image with
   | Some i =>
       if truthyString i then [ setTempReportData (Draft.withImageUrl i) ] else []
   | None => []
   end)
  ++ [ addMessage text0 USER false None false image ]
  ++
  if stepEqb s.(currentStep) CATEGORY_SELECTION
     || stepEqb s.(currentStep) SUBCATEGORY_SELECTION
  then
    [ setIsTyping true ]
    ++ (let inferredCategory := inferCategoryFromText text0 in
        match inferredCategory with
        | Some c =>
            if truthyString c
            then
              let analysis := analyzeReportDescription text0 c in
              [ setTempReportData
                  (fun _ => Draft.mk (Some c) None (Some text0) None None None);
                addMessage
                  ("Entendido. Identifiquei que se trata de: " ++ c ++ ".")%string
                  BOT false None false None;
                setTempReportData (Draft.withAnalysis analysis);
                setTimeout
                  [ addMessage analysis.(AiResponse.text) BOT false None false None;
                    setTimeout
                      [ addMessage
                          "Para finalizar, como prefere informar a localização exata?"
                          BOT false None true None;
                        setCurrentStep LOCATION_METHOD_SELECTION ]
                      1000 ]
                  1000 ]
            else
              [ addMessage
                  "Não consegui identificar a categoria automaticamente. Por favor, selecione uma das opções."
                  BOT true (Some MAIN_CATEGORIES) false None;
                setCurrentStep CATEGORY_SELECTION ]
        | None =>
            [ addMessage
                "Não consegui identificar a categoria automaticamente. Por favor, selecione uma das opções."
                BOT true (Some MAIN_CATEGORIES) false None;
              setCurrentStep CATEGORY_SELECTION ]
        end)
    ++ [ setIsTyping false ]
  else if stepEqb s.(currentStep) DESCRIPTION
  then
    let fullDescription :=
      match s.(tempReportData).(Draft.subcategory) with
      | Some sub =>
          if truthyString sub then ("[" ++ sub ++ "] - " ++ text0)%string else text0
      | None => text0
      end in
    (** [tempReportData.category as string]: an unset category is
        interpolated into the prompt as the text "undefined". *)
    let analysis :=
      analyzeReportDescription fullDescription
        (match s.(tempReportData).(Draft.category) with
         | Some c => c
         | None => "undefined"
         end) in
    [ setIsTyping true;
      setTempReportData (Draft.withDescription fullDescription analysis);
      addMessage analysis.(AiResponse.text) BOT false None false None;
      setTimeout
        [ addMessage "Como você prefere informar a localização da ocorrência?"
            BOT false None true None;
          setCurrentStep LOCATION_METHOD_SELECTION ]
        800;
      setIsTyping false ]
  else if stepEqb s.(currentStep) LOCATION_INPUT_TEXT
  then
    let locationData := extractLocationFromText text0 in
    [ setIsTyping true;
      addMessage locationData.(LocationExtractionResponse.confirmationText)
        BOT false None false None ]
    ++ finalizeReport s.(tempReportData)
         (Coordinates.mk
            locationData.(LocationExtractionResponse.coordinates).(Coordinates.lat)
            locationData.(LocationExtractionResponse.coordinates).(Coordinates.lng))
         (Some locationData.(LocationExtractionResponse.neighborhood))
    ++ [ setIsTyping false ]
  else [].

Definition handlePostCompletionAction (value : string) : list Cmd :=
  if String.eqb value "NEW_REPORT"
  then
    [ addMessage "Nova denúncia" USER false None false None;
      setTempReportData (fun _ => Draft.empty);
      setTimeout
        [ addMessage "Sobre qual tipo de problema climático deseja alertar?"
            BOT true (Some MAIN_CATEGORIES) false None;
          setCurrentStep CATEGORY_SELECTION ]
        500 ]
  else if String.eqb value "VIEW_MAP"
  then [ setView dashboard ]
  else [].

Definition handleQuickReply (s : State) (value : string) : list Cmd :=
  if stepEqb s.(currentStep) CATEGORY_SELECTION
  then
    let selectedMain :=
      find (fun opt => String.eqb opt.(QuickReplyOption.value) value)
           MAIN_CATEGORIES in
    let label :=
      match selectedMain with
      | Some opt => opt.(QuickReplyOption.label)
      | None => value
      end in
    [ addMessage label USER false None false None;
      setTempReportData
        (fun _ => Draft.mk (Some value) None None None None None) ]
    ++
    (let subOptions := Obj.get SUB_CATEGORIES value in
     if match subOptions with
        | Some options => (0 <? List.length options)%nat
        | None => false
        end
     then
       [ setIsTyping true;
         setTimeout
           [ addMessage "Pode especificar melhor o problema?" BOT true
               subOptions false None;
             setCurrentStep SUBCATEGORY_SELECTION;
             setIsTyping false ]
           600 ]
     else
       [ setIsTyping true;
         setTimeout
           [ addMessage
               ("Certo, " ++ label
                ++ ". Por favor, descreva a situação ou envie uma foto.")%string
               BOT false None false None;
             setCurrentStep DESCRIPTION;
             setIsTyping false ]
           800 ])
  else if stepEqb s.(currentStep) SUBCATEGORY_SELECTION
  then
    [ addMessage value USER false None false None;
      setTempReportData (Draft.withSubcategory value);
      setIsTyping true;
      setTimeout
        [ addMessage
            "Entendido. Se tiver mais detalhes ou uma foto, pode enviar agora. Caso contrário, apenas digite 'ok'."
            BOT false None false None;
          setCurrentStep DESCRIPTION;
          setIsTyping false ]
        800 ]
  else if stepEqb s.(currentStep) COMPLETED
  then handlePostCompletionAction value
  else [].

Definition handleLocationRequest (s : State) (method : LocationMethod)
           (device : Geolocation) : list Cmd :=
  match method with
  | gps =>
      [ setWaitingForLocation true ]
      ++
      match device with
      | position latitude longitude =>
          [ setWaitingForLocation false;
            addMessage "📍 Localização GPS recebida." USER false None false None ]
          ++ finalizeReport s.(tempReportData)
               (Coordinates.mk latitude longitude) (Some "Localização GPS")
      | positionError =>
          [ setWaitingForLocation false;
            addMessage "Erro ao obter GPS. Tente digitar o bairro ou usar o mapa."
              BOT false None false None ]
      | unsupported =>
          [ setWaitingForLocation false;
            addMessage "GPS não suportado." BOT false None false None ]
      end
  | text =>
      [ addMessage "✍️ Vou digitar o endereço/bairro" USER false None false None;
        setIsTyping true;
        setTimeout
          [ addMessage
              "Por favor, digite o nome do bairro e um ponto de referência próximo."
              BOT false None false None;
            setCurrentStep LOCATION_INPUT_TEXT;
            setIsTyping false ]
          500 ]
  | map =>
      [ addMessage "🗺️ Vou marcar no mapa" USER false None false None;
        setShowMapPicker true;
        setCurrentStep LOCATION_INPUT_MAP ]
  end.

Definition handleMapLocationSelect (s : State) (coords : Coordinates.t)
  : list Cmd :=
  [ setShowMapPicker false;
    addMessage "📍 Local marcado no mapa." USER false None false None ]
  ++ finalizeReport s.(tempReportData) coords (Some "Marcado no Mapa").

(** The events the component reacts to. *)
Inductive Event : Type :=
| Mount
| SendMessage (text0 : string) (image : option string)
| QuickReply (value : string)
| LocationRequest (method : LocationMethod) (device : Geolocation)
| MapLocationSelect (coords : Coordinates.t)
| CloseMapPicker
| ShowView (v : View).

Definition handler (s : State) (e : Event) : list Cmd :=
  match e with
  | Mount => onMount s
  | SendMessage text0 image => handleUserMessage s text0 image
  | QuickReply value => handleQuickReply s value
  | LocationRequest method device => handleLocationRequest s method device
  | MapLocationSelect coords => handleMapLocationSelect s coords
  | CloseMapPicker => [ setShowMapPicker false ]
  | ShowView v => [ setView v ]
  end.

Variable clock : nat -> Z.

(** One event handled to its end, timers included. *)
Definition dispatch (w : World) (e : Event) : World :=
  runEvent clock (handler w.(state) e) w.

(** A session: the events handled one after the other. *)
Definition session (events : list Event) (w : World) : World :=
  fold_left dispatch events w.

End Handlers.

End App.


Import App.

(* ================================================================= *)
(** * Statements read from the specification, and sample inputs *)

(** The reading of C4 word for word: an unset field takes the default, a
    set field is copied. *)
Definition finalizedAsStated (d : Draft.t) (r : Report.t) : Prop :=
  r.(Report.category)
  = match d.(Draft.category) with Some c => c | None => categoryValue OTHER end
  /\ r.(Report.severity)
     = match d.(Draft.severity) with Some n => n | None => 1 end
  /\ r.(Report.aiAnalysis)
     = match d.(Draft.aiAnalysis) with Some a => a | None => "Sem análise" end
  /\ r.(Report.description)
     = match d.(Draft.description), d.(Draft.subcategory) with
       | Some t, _ => t
       | None, Some sub => sub
       | None, None => "Sem descrição detalhada"
       end
  /\ r.(Report.status) = pending.

(** A draft whose analysis came back with severity 0 and an empty text. *)
Definition draftSeverityZero : Draft.t :=
  Draft.mk (Some "Alagamentos e Enchentes") None (Some "rua molhada")
           (Some 0) (Some "") None.

(** The two messages that close [finalizeReport], built at the k-th reading
    of the clock. *)
Definition registeredMessage (clock : nat -> Z) (k : nat) : Message.t :=
  newMessage clock k
    "✅ Denúncia registrada e analisada pela IA. O local foi adicionado ao mapa de risco."
    BOT false None false None.

Definition whatNextMessage (clock : nat -> Z) (k : nat) : Message.t :=
  newMessage clock k "O que deseja fazer agora?" BOT true
    (Some [ QuickReplyOption.mk "Nova denúncia" "NEW_REPORT";
            QuickReplyOption.mk "Ver Mapa de Risco" "VIEW_MAP" ])
    false None.

(** The steps a script sets, in the order of the program text, callbacks
    of timers included. *)
Fixpoint stepsSet (c : Cmd) : list FlowStep :=
  match c with
  | setCurrentStep step => [step]
  | setTimeout callback _ => flat_map stepsSet callback
  | _ => []
  end.


(** The draft once the image of a message, if any, has been stored. *)
Definition withImage (image : option string) (d : Draft.t) : Draft.t :=
  match image with
  | Some i => if truthyString i then Draft.withImageUrl i d else d
  | None => d
  end.

(** A transport for the samples: it classifies every text as a structural
    problem, answers the other structured prompts with a JSON text, and has
    no greeting to give. *)
Definition sampleTransport (p : GeminiService.Prompt)
  : Attempt GeminiService.GenerateContentResponse :=
  match p with
  | GeminiService.CategoryPrompt _ =>
      Ok {| GeminiService.text := Some "Rachaduras e Estruturas" |}
  | GeminiService.GreetingPrompt => Thrown
  | _ => Ok {| GeminiService.text := Some "{...}" |}
  end.

(** The JSON of the analysis read as text and severity: here severity 4, and
    for [parseSeverity7] a severity the scale does not have. *)
Definition parseSeverity4 (jsonText : string) : Attempt AiResponse.t :=
  Ok (AiResponse.mk "Isso parece sério. Onde fica?" 4).

Definition parseSeverity7 (jsonText : string) : Attempt AiResponse.t :=
  Ok (AiResponse.mk "Isso parece sério. Onde fica?" 7).

Definition parseBarra (jsonText : string) : Attempt LocationExtractionResponse.t :=
  Ok (LocationExtractionResponse.mk "Barra"
        (Coordinates.mk ((-130104) # 10000) ((-385329) # 10000))
        "Entendi, você está se referindo ao bairro Barra.").

(** A clock that stands still while one turn of the page runs: a reading
    every quarter of a millisecond, from a fixed start. *)
Definition sampleClock (k : nat) : Z := (1700000000000 + Z.of_nat (k / 4))%Z.

(** A clock given by the readings it answered, the last one kept after the
    list is used up. *)
Definition clockOfReadings (readings : list Z) (k : nat) : Z :=
  nth k readings (last readings 0%Z).

(** A whole report by quick replies, located on the map. *)
Definition mapSession : list Event :=
  [ Mount;
    QuickReply "Rachaduras e Estruturas";
    QuickReply "Muro inclinando";
    SendMessage "ok" None;
    LocationRequest map unsupported;
    MapLocationSelect (Coordinates.mk ((-129700) # 10000) ((-385000) # 10000)) ].

(** The readings of the clock during [mapSession], in milliseconds from the
    start of the page: two readings for each message and for the report.  The
    clock moves between the turns of the page (more than the delay of a
    timer) and stands still within a turn. *)
Definition mapSessionClock : nat -> Z :=
  clockOfReadings
    (List.map (Z.add 1700000000000)
       [ 1000; 1000; 3001; 3001;               (* greeting, category prompt *)
         9000; 9000; 9601; 9601;               (* category, sub-category prompt *)
         14000; 14000; 14801; 14801;           (* sub-category, detail prompt *)
         20000; 20000; 20950; 20950; 21751; 21751;  (* "ok", analysis, location prompt *)
         26000; 26000;                         (* "on the map" *)
         31000; 31000; 31000; 31000;           (* "marked", the report *)
         32001; 32001; 32001; 32001 ]%Z).      (* registered, what next *)

(** A severity on the scale of the reports: an integer from 1 to 5. *)
Definition onScale (n : Q) : Prop :=
  exists z : Z, n == inject_Z z /\ (1 <= z <= 5)%Z.

















(** The three buckets as C8 states them. *)
Definition statedLow (r : Report.t) : bool := Qle_bool r.(Report.severity) 2.
Definition statedMedium (r : Report.t) : bool := Qeq_bool r.(Report.severity) 3.
Definition statedHigh (r : Report.t) : bool := Qle_bool 4 r.(Report.severity).

(** The bucket of everything that is neither high nor medium. *)
Definition neitherHighNorMedium (r : Report.t) : bool :=
  negb (statedHigh r) && negb (statedMedium r).

(** How many reports a test keeps. *)
Definition countOf (p : Report.t -> bool) (reports : list Report.t) : nat :=
  List.length (filter p reports).

(** A severity that is an integer. *)
Definition integral (n : Q) : Prop := exists z : Z, n == inject_Z z.

(** A report with the given neighbourhood and severity, the rest fixed. *)
Definition sampleReport (hood : option string) (severity : Q) : Report.t :=
  {| Report.id := "1700000000000";
     Report.category := "Alagamentos e Enchentes";
     Report.subcategory := None;
     Report.description := "rua alagada";
     Report.location := Coordinates.mk ((-129777) # 10000) ((-385016) # 10000);
     Report.neighborhood := hood;
     Report.timestamp := 1700000000000;
     Report.severity := severity;
     Report.aiAnalysis := "Sem análise";
     Report.status := pending;
     Report.imageUrl := None |}.

Definition sampleReports : list Report.t :=
  [ sampleReport (Some "Barra") 2;
    sampleReport None 5;
    sampleReport (Some "Pituba") 3;
    sampleReport (Some "Barra") 3;
    sampleReport (Some "") 4;
    sampleReport (Some "Ondina") 3 ].

(** The analysis read with a severity between two marks of the scale. *)
Definition parseSeverityThreeAndHalf (jsonText : string) : Attempt AiResponse.t :=
  Ok (AiResponse.mk "Isso parece sério. Onde fica?" (7 # 2)).

(** Every report a command can append, whatever the clock reads, satisfies
    [P]; callbacks of timers included. *)
Fixpoint appendsOnly (P : Report.t -> Prop) (c : Cmd) : Prop :=
  match c with
  | appendReport newReport => forall id timestamp, P (newReport id timestamp)
  | setTimeout callback _ =>
      fold_right (fun c' rest => appendsOnly P c' /\ rest) True callback
  | _ => True
  end.

Definition scriptAppendsOnly (P : Report.t -> Prop) (script : list Cmd) : Prop :=
  fold_right (fun c rest => appendsOnly P c /\ rest) True script.

Definition timersAppendOnly (P : Report.t -> Prop) (pending : list Timer) : Prop :=
  Forall (fun t : Timer => scriptAppendsOnly P (snd t)) pending.

(** A report with a category. *)
Definition hasCategory (r : Report.t) : Prop := r.(Report.category) <> "".

(* ----------------------------------------------------------------- *)
(** ** Further statements *)

(** [l] is [l0] with something added at its end. *)
Definition extends {A : Type} (l0 l : list A) : Prop := exists added, l = l0 ++ added.

(** How many reports a command appends, callbacks of timers included. *)
Fixpoint appendsAll (c : Cmd) : nat :=
  match c with
  | appendReport _ => 1
  | setTimeout callback _ => list_sum (List.map appendsAll callback)
  | _ => 0
  end.

Definition scriptAppends (script : list Cmd) : nat :=
  list_sum (List.map appendsAll script).

Definition pendingAppends (pending : list Timer) : nat :=
  list_sum (List.map (fun t : Timer => scriptAppends (snd t)) pending).

(** The events that end a report: a map tap, a GPS position, and a text
    sent while the bot waits for the place. *)
Definition finalizes (s : State) (e : Event) : bool :=
  match e with
  | MapLocationSelect _ => true
  | LocationRequest gps (position _ _) => true
  | SendMessage _ _ => stepEqb s.(currentStep) LOCATION_INPUT_TEXT
  | _ => false
  end.

(** The description sent to the analysis and kept on the draft: the text,
    after the sub-category in brackets when there is one. *)
Definition fullDescriptionOf (d : Draft.t) (text0 : string) : string :=
  match d.(Draft.subcategory) with
  | Some sub => if truthyString sub then "[" ++ sub ++ "] - " ++ text0 else text0
  | None => text0
  end.

(** The category as the prompt of the analysis shows it. *)
Definition categoryText (d : Draft.t) : string :=
  match d.(Draft.category) with
  | Some c => c
  | None => "undefined"
  end.


(** A world in the given step with the given draft, nothing said yet. *)
Definition worldAt (step : FlowStep) (d : Draft.t) : World :=
  mkWorld (mkState chat [] [] step d false false false) 0.

(** A draft with a category and a sub-category chosen by quick replies. *)
Definition draftBueiro : Draft.t :=
  Draft.mk (Some "Alagamentos e Enchentes") (Some "Bueiro entupido")
           None None None None.

(** The draft of [draftBueiro] after the description "ok" analysed with
    severity 4. *)
Definition draftAnalysed : Draft.t :=
  Draft.mk (Some "Alagamentos e Enchentes") (Some "Bueiro entupido")
           (Some "[Bueiro entupido] - ok") (Some 4)
           (Some "Isso parece sério. Onde fica?") None.

(** What every report has: a category, a description and an analysis text
    that are not empty, and the status pending. *)
Definition wellFormed (r : Report.t) : Prop :=
  r.(Report.category) <> ""
  /\ r.(Report.description) <> ""
  /\ r.(Report.aiAnalysis) <> ""
  /\ r.(Report.status) = pending.

(** Two reports that differ at most in id, date and place. *)
Definition sameContent (r1 r2 : Report.t) : Prop :=
  r1.(Report.category) = r2.(Report.category)
  /\ r1.(Report.subcategory) = r2.(Report.subcategory)
  /\ r1.(Report.description) = r2.(Report.description)
  /\ r1.(Report.severity) = r2.(Report.severity)
  /\ r1.(Report.aiAnalysis) = r2.(Report.aiAnalysis)
  /\ r1.(Report.imageUrl) = r2.(Report.imageUrl).








(** How many reports the markers show in a given colour. *)
Definition coloured (c : string) (reports : list Report.t) : nat :=
  countOf (fun r => String.eqb (Dashboard.getSeverityColor r.(Report.severity)) c)
          reports.

(** The slices of the severity chart that are not empty. *)
Definition slices (low medium high : nat) : list Dashboard.SeverityDatum.t :=
  filter (fun d => (0 <? d.(Dashboard.SeverityDatum.value))%nat)
    [ Dashboard.SeverityDatum.mk "Baixo (1-2)" low Dashboard.COLORS_primary;
      Dashboard.SeverityDatum.mk "Médio (3)" medium Dashboard.COLORS_warning;
      Dashboard.SeverityDatum.mk "Crítico (4-5)" high Dashboard.COLORS_danger ].


(** The ASCII white space: TAB, LF, VT, FF, CR and the space. *)
Definition isWhite (c : ascii) : bool :=
  existsb (Ascii.eqb c)
    (List.map ascii_of_nat [9; 10; 11; 12; 13; 32]%nat).

Fixpoint blank (s : string) : bool :=
  match s with
  | EmptyString => true
  | String c r => isWhite c && blank r
  end.

(** The position of the last click among some actions on the map picker. *)
Fixpoint lastClick (actions : list ChatInterface.PickerAction)
  : option Coordinates.t :=
  match actions with
  | [] => None
  | a :: rest =>
      match lastClick rest with
      | Some c => Some c
      | None =>
          match a with
          | ChatInterface.click c => Some c
          | ChatInterface.confirm => None
          end
      end
  end.

(** A transport that answers every prompt with one short text. *)
Definition greetingTransport (p : GeminiService.Prompt)
  : Attempt GeminiService.GenerateContentResponse :=
  Ok {| GeminiService.text := Some "Olá! Sou o EcoSalvador." |}.

(** No two messages are made within the same millisecond: the readings of
    the clock taken for ids, which are the even ones, are all different. *)
Definition idReadingsDistinct (clock : nat -> Z) : Prop :=
  forall i j : nat, clock (2 * i)%nat = clock (2 * j)%nat -> i = j.

(** The ids of the messages are the texts of different id readings taken so
    far. *)
Definition stamped (clock : nat -> Z) (w : World) : Prop :=
  exists (n : nat) (readings : list nat),
    w.(clockReads) = (2 * n)%nat
    /\ List.map Message.id w.(state).(messages)
       = List.map (fun i => JS.toString (clock (2 * i)%nat)) readings
    /\ NoDup readings
    /\ Forall (fun i => (i < n)%nat) readings.

(** A clock that ticks once for every message or report: the reading for
    the id and the one for the timestamp fall in the same millisecond. *)
Definition tickingClock (k : nat) : Z := (1700000000000 + Z.of_nat (k / 2))%Z.

(** A command gives every report it appends the id it is handed, callbacks
    of timers included. *)
Fixpoint keepsId (c : Cmd) : Prop :=
  match c with
  | appendReport newReport =>
      forall id timestamp, (newReport id timestamp).(Report.id) = id
  | setTimeout callback _ =>
      fold_right (fun c' rest => keepsId c' /\ rest) True callback
  | _ => True
  end.

Definition scriptKeepsId (script : list Cmd) : Prop :=
  fold_right (fun c rest => keepsId c /\ rest) True script.

Definition timersKeepId (pending : list Timer) : Prop :=
  Forall (fun t : Timer => scriptKeepsId (snd t)) pending.

(** The ids of the reports are the texts of different id readings taken so
    far. *)
Definition filed (clock : nat -> Z) (w : World) : Prop :=
  exists (n : nat) (readings : list nat),
    w.(clockReads) = (2 * n)%nat
    /\ List.map Report.id w.(state).(reports)
       = List.map (fun i => JS.toString (clock (2 * i)%nat)) readings
    /\ NoDup readings
    /\ Forall (fun i => (i < n)%nat) readings.

(** Two reports of one draft: the report of [mapSession], then a GPS
    position. *)
Definition twoReportSession : list Event :=
  mapSession ++ [ LocationRequest gps (position ((-129777) # 10000) ((-385016) # 10000)) ].

(* ================================================================= *)
(** * Properties *)

(* ----------------------------------------------------------------- *)
(** ** Truthiness *)

Lemma truthyString_true (s : string) : truthyString s = true <-> s <> "".
Proof.
  unfold truthyString. rewrite negb_true_iff. split.
  - intros H ->. discriminate.
  - intros H. destruct (String.eqb_spec s ""); [contradiction|reflexivity].
Qed.

Lemma truthyNumber_true (n : Q) : truthyNumber n = true <-> ~ n == 0.
Proof.
  unfold truthyNumber. rewrite negb_true_iff. split.
  - intros H E. apply Qeq_bool_iff in E. congruence.
  - intros H. destruct (Qeq_bool n 0) eqn:E; [|reflexivity].
    apply Qeq_bool_iff in E. contradiction.
Qed.

Lemma orString_set (a : option string) (b s : string) :
  a = Some s -> s <> "" -> orString a b = s.
Proof.
  intros -> H. unfold orString. apply truthyString_true in H. now rewrite H.
Qed.

Lemma orString_unset (a : option string) (b : string) :
  a = None \/ a = Some "" -> orString a b = b.
Proof. intros [-> | ->]; reflexivity. Qed.

Lemma orNumber_set (a : option Q) (b n : Q) :
  a = Some n -> ~ n == 0 -> orNumber a b = n.
Proof.
  intros -> H. unfold orNumber. apply truthyNumber_true in H. now rewrite H.
Qed.

Lemma orNumber_unset (a : option Q) (b : Q) :
  a = None \/ (exists n, a = Some n /\ n == 0) -> orNumber a b = b.
Proof.
  intros [-> | (n & -> & H)]; [reflexivity|].
  unfold orNumber, truthyNumber. apply Qeq_bool_iff in H. now rewrite H.
Qed.

Lemma orOption_set (a b : option string) (s : string) :
  a = Some s -> s <> "" -> orOption a b = Some s.
Proof.
  intros -> H. unfold orOption. apply truthyString_true in H. now rewrite H.
Qed.

Lemma orOption_unset (a b : option string) :
  a = None \/ a = Some "" -> orOption a b = b.
Proof. intros [-> | ->]; reflexivity. Qed.

(* ----------------------------------------------------------------- *)
(** ** Numbers as text *)
















(* ----------------------------------------------------------------- *)
(** ** Sorting *)

Section SortFacts.

Context {A : Type}.
Variable cmp : A -> A -> Q.
Variable key : A -> Q.











End SortFacts.

(* ----------------------------------------------------------------- *)
(** ** Objects as records *)

Section ObjFacts.

Context {V : Type}.










End ObjFacts.

(* ----------------------------------------------------------------- *)
(** ** The gateway *)

Section GatewayFacts.

Variable generateContent :
  GeminiService.Prompt -> Attempt GeminiService.GenerateContentResponse.

(** Whatever the transport answers, an inferred category is one of the
    values of the enum, and it is not the empty string. *)
Lemma inferCategory_valid (text0 c : string) :
  GeminiService.inferCategoryFromText generateContent text0 = Some c ->
  In c ReportCategory_values /\ truthyString c = true.
Proof.
  unfold GeminiService.inferCategoryFromText.
  destruct (generateContent (GeminiService.CategoryPrompt text0)) as [[[t|]]|];
    unfold JS.bind, tryCatch; cbn [GeminiService.text option_map];
    try discriminate.
  destruct (truthyString (trim t)) eqn:Ht; cbn [andb]; try discriminate.
  destruct (includes ReportCategory_values (trim t)) eqn:Hi; try discriminate.
  intros H; injection H as <-. split; [|assumption].
  unfold includes in Hi. apply existsb_exists in Hi as (x & Hx & Heq).
  apply String.eqb_eq in Heq. now subst.
Qed.

End GatewayFacts.

(** C1. When every call of the transport fails (it throws, or the text of
    its response is undefined or empty), [analyzeReportDescription] returns
    severity 3 with the fixed reassurance text, [extractLocationFromText]
    returns the centre of the city (-12.9777, -38.5016) labelled
    "Salvador (Centro)" with the fixed apology, [generateInitialGreeting]
    returns the canned greeting and [inferCategoryFromText] returns null:
    each operation returns a value, none passes the failure on. *)
Theorem C1_gateway_fallback :
  forall (generateContent :
            GeminiService.Prompt -> Attempt GeminiService.GenerateContentResponse)
         (parseAiResponse : string -> Attempt AiResponse.t)
         (parseLocation : string -> Attempt LocationExtractionResponse.t),
    (forall p, GeminiService.transportFails (generateContent p)) ->
    (forall description selectedCategory,
        GeminiService.analyzeReportDescription generateContent parseAiResponse
          description selectedCategory
        = {| AiResponse.text :=
               "Entendido. Por favor, compartilhe a localização para que possamos registrar a ocorrência.";
             AiResponse.severity := 3 |})
    /\ (forall text0,
           GeminiService.extractLocationFromText generateContent parseLocation text0
           = {| LocationExtractionResponse.neighborhood := "Salvador (Centro)";
                LocationExtractionResponse.coordinates :=
                  Coordinates.mk ((-129777) # 10000) ((-385016) # 10000);
                LocationExtractionResponse.confirmationText :=
                  "Não consegui identificar o local exato pelo texto. Usarei o centro da cidade como referência." |})
    /\ GeminiService.generateInitialGreeting generateContent
       = GeminiService.greetingFallback
    /\ (forall text0,
           GeminiService.inferCategoryFromText generateContent text0 = None).
Proof.
  intros gc pa pl Hfail.
  repeat split; intros;
    unfold GeminiService.analyzeReportDescription,
           GeminiService.extractLocationFromText,
           GeminiService.generateInitialGreeting,
           GeminiService.inferCategoryFromText;
    match goal with
    | |- context [gc ?p] => destruct (Hfail p) as [-> | [-> | ->]]
    end; reflexivity.
Qed.

(** C1 at a transport that always throws. *)
Lemma C1_gateway_fallback_witness :
  GeminiService.analyzeReportDescription (fun _ => Thrown) (fun _ => Thrown)
    "muro caindo" "Outro"
  = GeminiService.analyzeFallback
  /\ GeminiService.inferCategoryFromText (fun _ => Thrown) "muro caindo" = None.
Proof.
  assert (H : forall p : GeminiService.Prompt,
             GeminiService.transportFails (@Thrown GeminiService.GenerateContentResponse)).
  { intros _. left. reflexivity. }
  destruct (C1_gateway_fallback (fun _ => Thrown) (fun _ => Thrown) (fun _ => Thrown) H)
    as (Ha & _ & _ & Hi).
  split; [apply Ha | apply Hi].
Defined.

(* ----------------------------------------------------------------- *)
(** ** Timers *)

Section TimerFacts.

Variable clock : nat -> Z.

Lemma pendingTimeouts_app (p q : list Timer) :
  pendingTimeouts (p ++ q) = (pendingTimeouts p + pendingTimeouts q)%nat.
Proof.
  unfold pendingTimeouts. rewrite map_app, list_sum_app. reflexivity.
Qed.

Lemma pendingTimeouts_cons (t : Timer) (p : list Timer) :
  pendingTimeouts (t :: p)
  = (S (list_sum (List.map timeouts (snd t))) + pendingTimeouts p)%nat.
Proof. reflexivity. Qed.

Lemma nextTimer_size (pending : list Timer) (t : Timer) (rest : list Timer) :
  nextTimer pending = Some (t, rest) ->
  pendingTimeouts pending
  = (S (list_sum (List.map timeouts (snd t))) + pendingTimeouts rest)%nat.
Proof.
  revert t rest. induction pending as [|a pending IH]; intros t rest;
    cbn [nextTimer].
  - discriminate.
  - rewrite pendingTimeouts_cons.
    destruct (nextTimer pending) as [[t' rest']|] eqn:Hn.
    + specialize (IH _ _ eq_refl).
      destruct (fst t' <? fst a)%nat; intros H; injection H as <- <-.
      * rewrite pendingTimeouts_cons, IH. lia.
      * reflexivity.
    + intros H; injection H as <- <-. reflexivity.
Qed.

Lemma runCmd_size (t : nat) (c : Cmd) (w : World) (pending : list Timer) :
  pendingTimeouts (snd (runCmd clock t c w pending))
  = (pendingTimeouts pending + timeouts c)%nat.
Proof.
  destruct c; cbn [runCmd snd timeouts]; try lia.
  rewrite pendingTimeouts_app, pendingTimeouts_cons. cbn [snd].
  change (pendingTimeouts []) with 0%nat. lia.
Qed.

Lemma runScript_size (t : nat) (script : list Cmd) :
  forall (w : World) (pending : list Timer),
    pendingTimeouts (snd (runScript clock t script w pending))
    = (pendingTimeouts pending + list_sum (List.map timeouts script))%nat.
Proof.
  induction script as [|c script IH]; intros w pending; cbn [runScript].
  - cbn [snd]. change (list_sum (List.map timeouts [])) with 0%nat. lia.
  - pose proof (runCmd_size t c w pending) as Hc.
    destruct (runCmd clock t c w pending) as [w' pending'].
    rewrite IH. cbn [snd] in Hc. rewrite Hc.
    change (list_sum (List.map timeouts (c :: script)))
      with (timeouts c + list_sum (List.map timeouts script))%nat.
    lia.
Qed.

(** Firing the timers ends: with as many units of fuel as there are
    [setTimeout] calls left, more fuel changes nothing. *)
Lemma fireTimers_enough (n : nat) :
  forall (fuel1 fuel2 : nat) (pending : list Timer) (w : World),
    (pendingTimeouts pending <= n)%nat ->
    (n <= fuel1)%nat -> (n <= fuel2)%nat ->
    fireTimers clock fuel1 pending w = fireTimers clock fuel2 pending w.
Proof.
  induction n as [|n IH]; intros fuel1 fuel2 pending w Hsize H1 H2.
  - destruct pending as [|t pending].
    + destruct fuel1, fuel2; reflexivity.
    + rewrite pendingTimeouts_cons in Hsize. lia.
  - destruct fuel1 as [|fuel1]; [lia|]. destruct fuel2 as [|fuel2]; [lia|].
    cbn [fireTimers].
    destruct (nextTimer pending) as [[[due callback] rest]|] eqn:Hn; [|reflexivity].
    apply nextTimer_size in Hn. cbn [snd] in Hn.
    pose proof (runScript_size due callback w rest) as Hs.
    destruct (runScript clock due callback w rest) as [w' pending'].
    cbn [snd] in Hs. apply IH; lia.
Qed.

End TimerFacts.

(* ----------------------------------------------------------------- *)
(** ** Finalization *)


(** C4, as stated, fails: the severity and the analysis text of the draft
    are set (to 0 and to the empty text, which the analysis may answer), and
    the report made from it has severity 1 and the text "Sem análise". *)
Lemma C4_counterexample :
  let w := runEvent (fun _ => 1700000000000%Z)
             (finalizeReport draftSeverityZero (Coordinates.mk 0 0)
                             (Some "Marcado no Mapa"))
             initialWorld in
  exists r,
    w.(state).(reports) = [r]
    /\ draftSeverityZero.(Draft.severity) = Some 0
    /\ r.(Report.severity) = 1
    /\ draftSeverityZero.(Draft.aiAnalysis) = Some ""
    /\ r.(Report.aiAnalysis) = "Sem análise"
    /\ ~ finalizedAsStated draftSeverityZero r.
Proof.
  cbv zeta. eexists. split; [vm_compute; reflexivity|].
  repeat (split; [reflexivity|]).
  intros (_ & H & _). discriminate H.
Qed.

Section FinalizationFacts.

Variable clock : nat -> Z.


(** [finalizeReport] run to its end: one report more, then the two closing
    messages and the step COMPLETED. *)
Lemma runEvent_finalizeReport (d : Draft.t) (coords : Coordinates.t)
      (hood : option string) (w : World) :
  let k := w.(clockReads) in
  runEvent clock (finalizeReport d coords hood) w
  = mkWorld
      (mkState w.(state).(view)
         ((w.(state).(messages) ++ [registeredMessage clock (2 + k)])
            ++ [whatNextMessage clock (4 + k)])
         (w.(state).(reports)
            ++ [newReport d coords hood (JS.toString (clock k)) (clock (S k))])
         COMPLETED w.(state).(tempReportData) false
         w.(state).(waitingForLocation) w.(state).(showMapPicker))
      (6 + k).
Proof. destruct w as [[] k]. reflexivity. Qed.

End FinalizationFacts.

Section FinalizationPaths.

Variable generateContent :
  GeminiService.Prompt -> Attempt GeminiService.GenerateContentResponse.
Variable parseAiResponse : string -> Attempt AiResponse.t.
Variable parseLocation : string -> Attempt LocationExtractionResponse.t.
Variable clock : nat -> Z.

Let dispatch := dispatch generateContent parseAiResponse parseLocation clock.

(** The map path: the report is made from the draft of the event. *)
Lemma reports_after_map (w : World) (coords : Coordinates.t) :
  (dispatch w (MapLocationSelect coords)).(state).(reports)
  = w.(state).(reports)
      ++ [newReport w.(state).(tempReportData) coords (Some "Marcado no Mapa")
            (JS.toString (clock (2 + w.(clockReads))))
            (clock (3 + w.(clockReads)))].
Proof. destruct w as [[] k]. reflexivity. Qed.

(** The GPS path. *)
Lemma reports_after_gps (w : World) (latitude longitude : Q) :
  (dispatch w (LocationRequest gps (position latitude longitude))).(state).(reports)
  = w.(state).(reports)
      ++ [newReport w.(state).(tempReportData)
            (Coordinates.mk latitude longitude) (Some "Localização GPS")
            (JS.toString (clock (2 + w.(clockReads))))
            (clock (3 + w.(clockReads)))].
Proof. destruct w as [[] k]. reflexivity. Qed.

(** The text path. *)
Lemma reports_after_text (w : World) (text0 : string) (image : option string) :
  w.(state).(currentStep) = LOCATION_INPUT_TEXT ->
  let locationData :=
    GeminiService.extractLocationFromText generateContent parseLocation text0 in
  (dispatch w (SendMessage text0 image)).(state).(reports)
  = w.(state).(reports)
      ++ [newReport w.(state).(tempReportData)
            locationData.(LocationExtractionResponse.coordinates)
            (Some locationData.(LocationExtractionResponse.neighborhood))
            (JS.toString (clock (4 + w.(clockReads))))
            (clock (5 + w.(clockReads)))].
Proof.
  destruct w as [[] k]. cbn [state currentStep]. intros ->. cbv zeta.
  unfold dispatch, App.dispatch, handler, handleUserMessage.
  cbn [state currentStep stepEqb orb tempReportData].
  destruct (GeminiService.extractLocationFromText _ _ _) as [hood [la lo] conf] eqn:E.
  unfold extractLocationFromText. rewrite E.
  destruct image as [i|]; [destruct (truthyString i)|]; reflexivity.
Qed.

End FinalizationPaths.

(** C4 (amended). The finalize step, which the GPS, text and map paths all
    run on the draft of their event, appends one report to the collection.
    Its category is the draft's category, or "Outro" when that is unset or
    empty; its severity is the draft's severity, or 1 when that is unset or
    0; its analysis text is the draft's, or "Sem análise" when unset or
    empty; its description is the draft's description, else the
    sub-category, else "Sem descrição detalhada"; its status is pending; it
    carries the resolved coordinate and neighbourhood. *)
Theorem C4_finalize_report :
  forall (generateContent :
            GeminiService.Prompt -> Attempt GeminiService.GenerateContentResponse)
         (parseAiResponse : string -> Attempt AiResponse.t)
         (parseLocation : string -> Attempt LocationExtractionResponse.t)
         (clock : nat -> Z) (w : World) (d : Draft.t)
         (coords : Coordinates.t) (hood : option string),
    let r := newReport d coords hood (JS.toString (clock w.(clockReads)))
                       (clock (S w.(clockReads))) in
    let unsetOrEmpty (a : option string) := a = None \/ a = Some "" in
    (* appended to the collection *)
    (runEvent clock (finalizeReport d coords hood) w).(state).(reports)
    = w.(state).(reports) ++ [r]
    (* category *)
    /\ (forall c, d.(Draft.category) = Some c -> c <> "" -> r.(Report.category) = c)
    /\ (unsetOrEmpty d.(Draft.category) -> r.(Report.category) = categoryValue OTHER)
    (* severity *)
    /\ (forall n, d.(Draft.severity) = Some n -> ~ n == 0 -> r.(Report.severity) = n)
    /\ (d.(Draft.severity) = None \/ (exists n, d.(Draft.severity) = Some n /\ n == 0) ->
        r.(Report.severity) = 1)
    (* analysis text *)
    /\ (forall a, d.(Draft.aiAnalysis) = Some a -> a <> "" -> r.(Report.aiAnalysis) = a)
    /\ (unsetOrEmpty d.(Draft.aiAnalysis) -> r.(Report.aiAnalysis) = "Sem análise")
    (* description *)
    /\ (forall t, d.(Draft.description) = Some t -> t <> "" -> r.(Report.description) = t)
    /\ (forall sub, unsetOrEmpty d.(Draft.description) ->
                    d.(Draft.subcategory) = Some sub -> sub <> "" ->
                    r.(Report.description) = sub)
    /\ (unsetOrEmpty d.(Draft.description) -> unsetOrEmpty d.(Draft.subcategory) ->
        r.(Report.description) = "Sem descrição detalhada")
    (* the rest *)
    /\ r.(Report.status) = pending
    /\ r.(Report.location) = coords
    /\ r.(Report.neighborhood) = hood
    /\ r.(Report.subcategory) = d.(Draft.subcategory)
    /\ r.(Report.imageUrl) = d.(Draft.imageUrl)
    (* the three paths finalize the draft of their event *)
    /\ (forall coords',
           (dispatch generateContent parseAiResponse parseLocation clock w
                     (MapLocationSelect coords')).(state).(reports)
           = w.(state).(reports)
               ++ [newReport w.(state).(tempReportData) coords' (Some "Marcado no Mapa")
                     (JS.toString (clock (2 + w.(clockReads))%nat))
                     (clock (3 + w.(clockReads))%nat)])
    /\ (forall latitude longitude,
           (dispatch generateContent parseAiResponse parseLocation clock w
                     (LocationRequest gps (position latitude longitude))).(state).(reports)
           = w.(state).(reports)
               ++ [newReport w.(state).(tempReportData)
                     (Coordinates.mk latitude longitude) (Some "Localização GPS")
                     (JS.toString (clock (2 + w.(clockReads))%nat))
                     (clock (3 + w.(clockReads))%nat)])
    /\ (forall text0 image,
           w.(state).(currentStep) = LOCATION_INPUT_TEXT ->
           let locationData :=
             GeminiService.extractLocationFromText generateContent parseLocation text0 in
           (dispatch generateContent parseAiResponse parseLocation clock w
                     (SendMessage text0 image)).(state).(reports)
           = w.(state).(reports)
               ++ [newReport w.(state).(tempReportData)
                     locationData.(LocationExtractionResponse.coordinates)
                     (Some locationData.(LocationExtractionResponse.neighborhood))
                     (JS.toString (clock (4 + w.(clockReads))%nat))
                     (clock (5 + w.(clockReads))%nat)]).
Proof.
  intros gc pa pl clock w d coords hood r unsetOrEmpty. subst r unsetOrEmpty.
  split. { rewrite runEvent_finalizeReport. reflexivity. }
  cbn [newReport Report.category Report.severity Report.aiAnalysis
       Report.description Report.status Report.location Report.neighborhood
       Report.subcategory Report.imageUrl].
  repeat match goal with |- _ /\ _ => split end;
    first [ apply reports_after_map | apply reports_after_gps
          | apply reports_after_text | reflexivity | idtac ].
  - intros c Hc Hne. now apply orString_set.
  - apply orString_unset.
  - intros n Hn Hne. now apply orNumber_set.
  - apply orNumber_unset.
  - intros a Ha Hne. now apply orString_set.
  - apply orString_unset.
  - intros t Ht Hne. rewrite (orOption_set _ _ t Ht Hne). now apply orString_set.
  - intros sub Hd Hs Hne. rewrite (orOption_unset _ _ Hd). now apply orString_set.
  - intros Hd Hs. rewrite (orOption_unset _ _ Hd). now apply orString_unset.
Qed.

(** C4 at the draft with severity 0, finalized on the map path. *)
Lemma C4_finalize_report_witness :
  let w := mkWorld (mkState chat [] [] LOCATION_INPUT_MAP draftSeverityZero
                            false false true) 0 in
  let r := newReport draftSeverityZero (Coordinates.mk 0 0) (Some "Marcado no Mapa")
             (JS.toString 1700000000000) 1700000000000%Z in
  r.(Report.category) = "Alagamentos e Enchentes"
  /\ r.(Report.severity) = 1
  /\ r.(Report.description) = "rua molhada".
Proof.
  cbv zeta.
  pose proof (C4_finalize_report (fun _ => Thrown) (fun _ => Thrown) (fun _ => Thrown)
                (fun _ => 1700000000000%Z)
                (mkWorld (mkState chat [] [] LOCATION_INPUT_MAP draftSeverityZero
                                  false false true) 0)
                draftSeverityZero (Coordinates.mk 0 0) (Some "Marcado no Mapa")) as H.
  cbv zeta in H.
  destruct H as (_ & Hcat & _ & _ & Hsev & _ & _ & Hdesc & _).
  split; [|split].
  - apply Hcat; [reflexivity|discriminate].
  - apply Hsev. right. exists 0. split; reflexivity.
  - apply Hdesc; [reflexivity|discriminate].
Defined.

(* ----------------------------------------------------------------- *)
(** ** The dialogue *)



Section FreeTextFacts.

Variable generateContent :
  GeminiService.Prompt -> Attempt GeminiService.GenerateContentResponse.
Variable parseAiResponse : string -> Attempt AiResponse.t.
Variable parseLocation : string -> Attempt LocationExtractionResponse.t.
Variable clock : nat -> Z.

Let dispatch := dispatch generateContent parseAiResponse parseLocation clock.
Let handler := handler generateContent parseAiResponse parseLocation.
Let infer := GeminiService.inferCategoryFromText generateContent.
Let analyze := GeminiService.analyzeReportDescription generateContent parseAiResponse.

(** Free text in one of the two selection steps, classified. *)
Lemma free_text_classified (w : World) (text0 c : string) (image : option string) :
  w.(state).(currentStep) = CATEGORY_SELECTION
  \/ w.(state).(currentStep) = SUBCATEGORY_SELECTION ->
  infer text0 = Some c ->
  let analysis := analyze text0 c in
  let k := w.(clockReads) in
  dispatch w (SendMessage text0 image)
  = mkWorld
      (mkState w.(state).(view)
         (w.(state).(messages)
            ++ [ newMessage clock k text0 USER false None false image;
                 newMessage clock (2 + k)
                   ("Entendido. Identifiquei que se trata de: " ++ c ++ ".")
                   BOT false None false None;
                 newMessage clock (4 + k) analysis.(AiResponse.text)
                   BOT false None false None;
                 newMessage clock (6 + k)
                   "Para finalizar, como prefere informar a localização exata?"
                   BOT false None true None ])
         w.(state).(reports)
         LOCATION_METHOD_SELECTION
         (Draft.mk (Some c) None (Some text0)
                   (Some analysis.(AiResponse.severity))
                   (Some analysis.(AiResponse.text)) None)
         false w.(state).(waitingForLocation) w.(state).(showMapPicker))
      (8 + k)
  /\ flat_map stepsSet (handler w.(state) (SendMessage text0 image))
     = [LOCATION_METHOD_SELECTION].
Proof.
  destruct w as [[v ms rs step d ty wl mp] k]. cbn [state currentStep clockReads].
  intros Hstep Hinfer. cbv zeta.
  destruct (inferCategory_valid generateContent text0 c Hinfer) as [_ Htruthy].
  unfold dispatch, App.dispatch, handler, App.handler, handleUserMessage.
  cbn [state currentStep tempReportData].
  unfold inferCategoryFromText. fold infer. rewrite Hinfer, Htruthy.
  replace (stepEqb step CATEGORY_SELECTION || stepEqb step SUBCATEGORY_SELECTION)
    with true by (destruct Hstep as [-> | ->]; reflexivity).
  unfold analyzeReportDescription. fold analyze.
  destruct image as [i|]; [destruct (truthyString i)|];
    (split; [unfold runEvent; cbn; rewrite <- !app_assoc; reflexivity | reflexivity]).
Qed.


End FreeTextFacts.



Section DraftReplacedFacts.

Variable generateContent :
  GeminiService.Prompt -> Attempt GeminiService.GenerateContentResponse.
Variable parseAiResponse : string -> Attempt AiResponse.t.
Variable parseLocation : string -> Attempt LocationExtractionResponse.t.
Variable clock : nat -> Z.

Let dispatch := dispatch generateContent parseAiResponse parseLocation clock.

(** Choosing to type the location changes neither the draft nor the
    reports, and leads to LOCATION_INPUT_TEXT. *)
Lemma location_by_text (w : World) (device : Geolocation) :
  let w' := dispatch w (LocationRequest text device) in
  w'.(state).(currentStep) = LOCATION_INPUT_TEXT
  /\ w'.(state).(tempReportData) = w.(state).(tempReportData)
  /\ w'.(state).(reports) = w.(state).(reports).
Proof. destruct w as [[] k]. repeat split. Qed.

End DraftReplacedFacts.

(** C10. Free text sent in CATEGORY_SELECTION or SUBCATEGORY_SELECTION and
    classified replaces the draft as a whole: what is left is the inferred
    category and the raw text as description (with the severity and text of
    the analysis, merged right after); a sub-category or image stored before,
    and the image attached to this very message, are gone from the draft, and
    the report finalized from it, on the map, GPS or text path, has neither
    sub-category nor image. *)
Theorem C10_draft_replaced :
  forall (generateContent :
            GeminiService.Prompt -> Attempt GeminiService.GenerateContentResponse)
         (parseAiResponse : string -> Attempt AiResponse.t)
         (parseLocation : string -> Attempt LocationExtractionResponse.t)
         (clock : nat -> Z) (w : World) (text0 c : string) (image : option string),
    w.(state).(currentStep) = CATEGORY_SELECTION
    \/ w.(state).(currentStep) = SUBCATEGORY_SELECTION ->
    GeminiService.inferCategoryFromText generateContent text0 = Some c ->
    let dispatch := dispatch generateContent parseAiResponse parseLocation clock in
    let analysis :=
      GeminiService.analyzeReportDescription generateContent parseAiResponse text0 c in
    let w' := dispatch w (SendMessage text0 image) in
    let bare (reports' : list Report.t) :=
      exists r, reports' = w.(state).(reports) ++ [r]
                /\ r.(Report.category) = c
                /\ r.(Report.subcategory) = None
                /\ r.(Report.imageUrl) = None in
    w'.(state).(tempReportData)
    = Draft.mk (Some c) None (Some text0)
               (Some analysis.(AiResponse.severity))
               (Some analysis.(AiResponse.text)) None
    /\ w'.(state).(tempReportData).(Draft.subcategory) = None
    /\ w'.(state).(tempReportData).(Draft.imageUrl) = None
    /\ (forall coords,
           bare (dispatch w' (MapLocationSelect coords)).(state).(reports))
    /\ (forall latitude longitude,
           bare (dispatch w' (LocationRequest gps (position latitude longitude)))
                .(state).(reports))
    /\ (forall device place image',
           bare (dispatch (dispatch w' (LocationRequest text device))
                          (SendMessage place image')).(state).(reports)).
Proof.
  intros gc pa pl clock w text0 c image Hstep Hc. cbv zeta.
  destruct (free_text_classified gc pa pl clock w text0 c image Hstep Hc) as [Hw _].
  cbv zeta in Hw.
  destruct (inferCategory_valid gc text0 c Hc) as [_ Htruthy].
  assert (Hcat : orString (Some c) (categoryValue OTHER) = c).
  { unfold orString. now rewrite Htruthy. }
  remember (dispatch gc pa pl clock w (SendMessage text0 image)) as w' eqn:Ew'.
  assert (Hd : w'.(state).(tempReportData)
               = Draft.mk (Some c) None (Some text0)
                   (Some (AiResponse.severity
                            (GeminiService.analyzeReportDescription gc pa text0 c)))
                   (Some (AiResponse.text
                            (GeminiService.analyzeReportDescription gc pa text0 c)))
                   None)
    by (rewrite Hw; reflexivity).
  assert (Hr : w'.(state).(reports) = w.(state).(reports))
    by (rewrite Hw; reflexivity).
  split; [exact Hd|]. split; [now rewrite Hd|]. split; [now rewrite Hd|].
  split; [|split].
  - intros coords. rewrite reports_after_map, Hd, Hr.
    eexists. split; [reflexivity|]. cbn. auto.
  - intros la lo. rewrite reports_after_gps, Hd, Hr.
    eexists. split; [reflexivity|]. cbn. auto.
  - intros device place image'.
    destruct (location_by_text gc pa pl clock w' device) as (Hs & Hd' & Hr').
    rewrite (reports_after_text gc pa pl clock _ place image' Hs), Hd', Hr', Hd, Hr.
    eexists. split; [reflexivity|]. cbn. auto.
Qed.

(** C10 on a message with an image, after a sub-category had been chosen. *)
Lemma C10_draft_replaced_witness :
  let dispatch := dispatch sampleTransport parseSeverity4 parseBarra sampleClock in
  let w := mkWorld (mkState chat [] [] SUBCATEGORY_SELECTION
                      (Draft.mk (Some "Alagamentos e Enchentes") (Some "Bueiro entupido")
                                None None None (Some "data:old"))
                      false false false) 0 in
  let w' := dispatch w (SendMessage "rachadura na parede" (Some "data:new")) in
  w'.(state).(tempReportData).(Draft.subcategory) = None
  /\ w'.(state).(tempReportData).(Draft.imageUrl) = None.
Proof.
  cbv zeta.
  pose proof (C10_draft_replaced sampleTransport parseSeverity4 parseBarra sampleClock
                (mkWorld (mkState chat [] [] SUBCATEGORY_SELECTION
                            (Draft.mk (Some "Alagamentos e Enchentes")
                                      (Some "Bueiro entupido")
                                      None None None (Some "data:old"))
                            false false false) 0)
                "rachadura na parede" "Rachaduras e Estruturas" (Some "data:new")
                (or_intror eq_refl) eq_refl) as H.
  cbv zeta in H. destruct H as (_ & Hs & Hi & _).
  split; assumption.
Defined.

(* ----------------------------------------------------------------- *)
(** ** Identifiers and severities in a session *)

(** The two closing messages of [finalizeReport] are built in the same
    callback: when the clock does not move between them, they carry the same
    id. *)
Lemma closing_messages_share_id (clock : nat -> Z) (d : Draft.t)
      (coords : Coordinates.t) (hood : option string) (w : World) :
  clock (2 + w.(clockReads))%nat = clock (4 + w.(clockReads))%nat ->
  exists front m1 m2,
    (runEvent clock (finalizeReport d coords hood) w).(state).(messages)
    = front ++ [m1; m2]
    /\ m1.(Message.id) = m2.(Message.id)
    /\ m1.(Message.text) <> m2.(Message.text).
Proof.
  intros Hclock. rewrite runEvent_finalizeReport. cbn [state messages].
  exists w.(state).(messages), (registeredMessage clock (2 + w.(clockReads))),
    (whatNextMessage clock (4 + w.(clockReads))).
  split; [now rewrite <- app_assoc|]. split.
  - unfold registeredMessage, whatNextMessage, newMessage. cbn [Message.id].
    now rewrite Hclock.
  - discriminate.
Qed.

(** C9 fails on the code: at the end of [mapSession] the transcript holds
    two different messages with the same id, the two that [finalizeReport]
    appends one right after the other. *)
Theorem C9_message_ids_collide :
  let w := session sampleTransport parseSeverity4 parseBarra mapSessionClock
                   mapSession initialWorld in
  exists front m1 m2,
    w.(state).(messages) = front ++ [m1; m2]
    /\ m1.(Message.id) = "1700000032001"
    /\ m2.(Message.id) = "1700000032001"
    /\ m1.(Message.text)
       = "✅ Denúncia registrada e analisada pela IA. O local foi adicionado ao mapa de risco."
    /\ m2.(Message.text) = "O que deseja fazer agora?"
    /\ ~ NoDup (List.map Message.id w.(state).(messages)).
Proof.
  cbv zeta.
  set (w := session _ _ _ _ _ _).
  assert (E : w.(state).(messages)
              = firstn 11 w.(state).(messages)
                  ++ [nth 11 w.(state).(messages) (newMessage mapSessionClock 0 "" BOT false None false None);
                      nth 12 w.(state).(messages) (newMessage mapSessionClock 0 "" BOT false None false None)])
    by (vm_compute; reflexivity).
  eexists _, _, _. split; [exact E|].
  repeat (split; [vm_compute; reflexivity|]).
  intros Hnd. rewrite E, map_app in Hnd.
  apply NoDup_app_remove_l in Hnd. cbn [List.map] in Hnd.
  apply NoDup_cons_iff in Hnd as [Hin _]. apply Hin. left. vm_compute. reflexivity.
Qed.

(** C2 fails on the code: the analysis of [mapSession] answers severity 7,
    and the report of the session carries it; its category is set. *)
Theorem C2_severity_off_scale :
  let w := session sampleTransport parseSeverity7 parseBarra mapSessionClock
                   mapSession initialWorld in
  exists r,
    w.(state).(reports) = [r]
    /\ r.(Report.severity) = 7
    /\ ~ onScale r.(Report.severity)
    /\ r.(Report.category) = "Rachaduras e Estruturas".
Proof.
  cbv zeta. eexists. split; [vm_compute; reflexivity|].
  split; [reflexivity|]. split; [|reflexivity].
  intros (z & Hz & Hrange). cbn [Report.severity] in Hz.
  unfold Qeq in Hz. cbn in Hz. lia.
Qed.

(* ----------------------------------------------------------------- *)
(** ** The dashboard: risk by neighbourhood *)


















(** The risk table of [sampleReports]: "Desconhecido" holds the two reports
    without a name, 2.5 is the mean of Barra, and Pituba stays before Ondina
    on the tie at 3.0. *)
Example risk_table_sample :
  Dashboard.neighborhoodRisks sampleReports
  = [ Dashboard.Risk.mk "Desconhecido" "4.5" 2;
      Dashboard.Risk.mk "Pituba" "3.0" 1;
      Dashboard.Risk.mk "Ondina" "3.0" 1;
      Dashboard.Risk.mk "Barra" "2.5" 2 ].
Proof. vm_compute. reflexivity. Qed.

(** Names that read as array indices come first among the groups, in
    numeric order, whatever their place in the collection; on a tie of the
    scores the table shows them in that order. *)
Example risk_table_index_names :
  List.map Dashboard.Risk.name
    (Dashboard.neighborhoodRisks
       [ sampleReport (Some "Barra") 3; sampleReport (Some "40") 3;
         sampleReport (Some "7") 3; sampleReport (Some "007") 3 ])
  = [ "7"; "40"; "Barra"; "007" ].
Proof. vm_compute. reflexivity. Qed.

(* ----------------------------------------------------------------- *)
(** ** The dashboard: indicators and severity buckets *)

Lemma countOf_cons (p : Report.t -> bool) (r : Report.t) (reports : list Report.t) :
  countOf p (r :: reports)
  = ((if p r then 1 else 0) + countOf p reports)%nat.
Proof. unfold countOf. cbn [filter]. now destruct (p r). Qed.

Lemma severityCounts_fold (reports : list Report.t) :
  forall low medium high : nat,
    fold_left Dashboard.countSeverity reports (low, medium, high)
    = ((low + countOf neitherHighNorMedium reports)%nat,
       (medium + countOf statedMedium reports)%nat,
       (high + countOf statedHigh reports)%nat).
Proof.
  induction reports as [|r reports IH]; intros low medium high; cbn [fold_left].
  - unfold countOf. cbn [filter List.length]. now rewrite !Nat.add_0_r.
  - rewrite !countOf_cons. unfold Dashboard.countSeverity at 2.
    unfold neitherHighNorMedium at 1, statedHigh at 1 2, statedMedium at 1 2.
    destruct (Qle_bool 4 (Report.severity r)) eqn:Hh,
             (Qeq_bool (Report.severity r) 3) eqn:Hm;
      rewrite IH; cbn [negb andb]; try (apply pair_equal_spec; split; [apply pair_equal_spec; split|]; lia).
    apply Qle_bool_iff in Hh. apply Qeq_bool_iff in Hm. rewrite Hm in Hh.
    exfalso. revert Hh. apply Qlt_not_le. reflexivity.
Qed.

(** The counters of the buckets: high and medium are as their tests say, and
    low counts all the rest. *)
Lemma severityCounts_spec (reports : list Report.t) :
  Dashboard.severityCounts reports
  = (countOf neitherHighNorMedium reports, countOf statedMedium reports,
     countOf statedHigh reports).
Proof. unfold Dashboard.severityCounts. now rewrite severityCounts_fold. Qed.

(** Every report is in one bucket. *)
Lemma buckets_total (reports : list Report.t) :
  (countOf neitherHighNorMedium reports + countOf statedMedium reports
   + countOf statedHigh reports)%nat
  = List.length reports.
Proof.
  induction reports as [|r reports IH]; [reflexivity|].
  rewrite !countOf_cons. cbn [List.length].
  unfold neitherHighNorMedium, statedMedium, statedHigh in *.
  destruct (Qle_bool 4 (Report.severity r)) eqn:Hh,
           (Qeq_bool (Report.severity r) 3) eqn:Hm; cbn [negb andb]; try lia.
  apply Qle_bool_iff in Hh. apply Qeq_bool_iff in Hm. rewrite Hm in Hh.
  exfalso. revert Hh. apply Qlt_not_le. reflexivity.
Qed.

Lemma Qle_bool_inject_Z (a b : Z) :
  Qle_bool (inject_Z a) (inject_Z b) = (a <=? b)%Z.
Proof. unfold Qle_bool, inject_Z. cbn [Qnum Qden]. now rewrite !Z.mul_1_r. Qed.

Lemma Qeq_bool_inject_Z (a b : Z) :
  Qeq_bool (inject_Z a) (inject_Z b) = (a =? b)%Z.
Proof. unfold Qeq_bool, inject_Z. cbn [Qnum Qden]. now rewrite !Z.mul_1_r. Qed.

(** On integer severities the rest is what is at most 2. *)
Lemma low_on_integers (r : Report.t) :
  integral r.(Report.severity) -> neitherHighNorMedium r = statedLow r.
Proof.
  intros (z & Hz). unfold neitherHighNorMedium, statedHigh, statedMedium, statedLow.
  rewrite Hz.
  change 4 with (inject_Z 4). change 3 with (inject_Z 3). change 2 with (inject_Z 2).
  rewrite !Qle_bool_inject_Z, Qeq_bool_inject_Z.
  destruct (Z.leb_spec 4 z), (Z.eqb_spec z 3), (Z.leb_spec z 2);
    cbn [negb andb]; try reflexivity; lia.
Qed.

(** On a collection whose severities are integers, the buckets are those of
    C8: at most 2, equal to 3, at least 4; their counts add up to the number
    of reports, and an empty bucket has no row. *)
Lemma severityData_on_integers (reports : list Report.t) :
  Forall (fun r => integral r.(Report.severity)) reports ->
  let low := countOf statedLow reports in
  let medium := countOf statedMedium reports in
  let high := countOf statedHigh reports in
  Dashboard.severityCounts reports = (low, medium, high)
  /\ (low + medium + high)%nat = List.length reports
  /\ Dashboard.severityData reports
     = filter (fun d => (0 <? d.(Dashboard.SeverityDatum.value))%nat)
         [ Dashboard.SeverityDatum.mk "Baixo (1-2)" low Dashboard.COLORS_primary;
           Dashboard.SeverityDatum.mk "Médio (3)" medium Dashboard.COLORS_warning;
           Dashboard.SeverityDatum.mk "Crítico (4-5)" high Dashboard.COLORS_danger ]
  /\ Forall (fun d => (0 < d.(Dashboard.SeverityDatum.value))%nat)
            (Dashboard.severityData reports).
Proof.
  intros Hint low medium high.
  assert (Hlow : countOf neitherHighNorMedium reports = low).
  { subst low. unfold countOf. f_equal. apply filter_ext_in.
    intros r Hr. apply low_on_integers. rewrite Forall_forall in Hint. now apply Hint. }
  assert (Hc : Dashboard.severityCounts reports = (low, medium, high))
    by (rewrite severityCounts_spec, Hlow; reflexivity).
  split; [exact Hc|]. split.
  - rewrite <- Hlow. apply buckets_total.
  - unfold Dashboard.severityData. rewrite Hc. split; [reflexivity|].
    apply Forall_forall. intros d Hd. apply filter_In in Hd as [_ Hd].
    now apply Nat.ltb_lt in Hd.
Qed.

(** C8 fails on the code: the analysis of [mapSession] answers severity
    3.5, the report carries it, and the chart counts it in the bucket named
    "Baixo (1-2)", though it is not at most 2: of the three buckets as stated
    none holds the report, and their counts do not add up to the total. *)
Theorem C8_fractional_severity_counted_low :
  let w := session sampleTransport parseSeverityThreeAndHalf parseBarra
                   mapSessionClock mapSession initialWorld in
  let reports := w.(state).(reports) in
  List.map Report.severity reports = [7 # 2]
  /\ Dashboard.severityData reports
     = [ Dashboard.SeverityDatum.mk "Baixo (1-2)" 1 Dashboard.COLORS_primary ]
  /\ countOf statedLow reports = 0%nat
  /\ countOf statedMedium reports = 0%nat
  /\ countOf statedHigh reports = 0%nat
  /\ List.length reports = 1%nat
  /\ ~ (7 # 2) <= 2.
Proof.
  cbv zeta. repeat split; try (vm_compute; reflexivity).
  intros H. vm_compute in H. apply H. reflexivity.
Qed.

Lemma statedHigh_true (r : Report.t) :
  statedHigh r = true <-> 4 <= r.(Report.severity).
Proof. apply Qle_bool_iff. Qed.




(* ----------------------------------------------------------------- *)
(** ** Every report has a category *)

Section AppendFacts.

Variable clock : nat -> Z.
Variable P : Report.t -> Prop.

Lemma scriptAppendsOnly_app (a b : list Cmd) :
  scriptAppendsOnly P (a ++ b) <-> scriptAppendsOnly P a /\ scriptAppendsOnly P b.
Proof.
  induction a as [|c a IH]; cbn [app scriptAppendsOnly fold_right].
  - tauto.
  - fold (scriptAppendsOnly P (a ++ b)). fold (scriptAppendsOnly P a).
    rewrite IH. tauto.
Qed.

Lemma runCmd_appends (t : nat) (c : Cmd) (w : World) (pending : list Timer) :
  appendsOnly P c ->
  Forall P w.(state).(reports) -> timersAppendOnly P pending ->
  Forall P (fst (runCmd clock t c w pending)).(state).(reports)
  /\ timersAppendOnly P (snd (runCmd clock t c w pending)).
Proof.
  intros Hc Hw Hp.
  destruct c; cbn [runCmd fst snd state reports onState]; try (split; assumption).
  - split; [|assumption]. apply Forall_app. split; [assumption|].
    constructor; [apply Hc | constructor].
  - split; [assumption|]. apply Forall_app. split; [assumption|].
    constructor; [exact Hc | constructor].
Qed.

Lemma runScript_appends (t : nat) (script : list Cmd) :
  forall (w : World) (pending : list Timer),
    scriptAppendsOnly P script ->
    Forall P w.(state).(reports) -> timersAppendOnly P pending ->
    Forall P (fst (runScript clock t script w pending)).(state).(reports)
    /\ timersAppendOnly P (snd (runScript clock t script w pending)).
Proof.
  induction script as [|c script IH]; intros w pending Hs Hw Hp; cbn [runScript].
  - split; assumption.
  - destruct Hs as [Hc Hs].
    destruct (runCmd_appends t c w pending Hc Hw Hp) as [Hw' Hp'].
    destruct (runCmd clock t c w pending) as [w' pending'].
    now apply IH.
Qed.

Lemma nextTimer_appends (pending : list Timer) (t : Timer) (rest : list Timer) :
  nextTimer pending = Some (t, rest) ->
  timersAppendOnly P pending ->
  scriptAppendsOnly P (snd t) /\ timersAppendOnly P rest.
Proof.
  revert t rest. induction pending as [|a pending IH]; intros t rest; cbn [nextTimer].
  - discriminate.
  - intros H Hp. apply Forall_cons_iff in Hp as [Ha Hp].
    destruct (nextTimer pending) as [[t' rest']|] eqn:Hn.
    + destruct (IH _ _ eq_refl Hp) as [Ht' Hrest'].
      destruct (fst t' <? fst a)%nat; injection H as <- <-.
      * split; [assumption | now constructor].
      * split; assumption.
    + injection H as <- <-. split; assumption.
Qed.

Lemma fireTimers_appends (fuel : nat) :
  forall (pending : list Timer) (w : World),
    Forall P w.(state).(reports) -> timersAppendOnly P pending ->
    Forall P (fireTimers clock fuel pending w).(state).(reports).
Proof.
  induction fuel as [|fuel IH]; intros pending w Hw Hp; cbn [fireTimers].
  - assumption.
  - destruct (nextTimer pending) as [[[due callback] rest]|] eqn:Hn; [|assumption].
    destruct (nextTimer_appends _ _ _ Hn Hp) as [Hc Hrest]. cbn [snd] in Hc.
    destruct (runScript_appends due callback w rest Hc Hw Hrest) as [Hw' Hp'].
    destruct (runScript clock due callback w rest) as [w' pending'].
    now apply IH.
Qed.

Lemma runEvent_appends (script : list Cmd) (w : World) :
  scriptAppendsOnly P script ->
  Forall P w.(state).(reports) ->
  Forall P (runEvent clock script w).(state).(reports).
Proof.
  intros Hs Hw. unfold runEvent.
  destruct (runScript_appends 0 script w [] Hs Hw (Forall_nil _)) as [Hw' Hp'].
  destruct (runScript clock 0 script w []) as [w' pending'].
  now apply fireTimers_appends.
Qed.

End AppendFacts.

Lemma newReport_hasCategory (d : Draft.t) (coords : Coordinates.t)
      (hood : option string) (id : string) (timestamp : Z) :
  hasCategory (newReport d coords hood id timestamp).
Proof.
  unfold hasCategory, newReport, orString. cbn [Report.category].
  destruct (Draft.category d) as [c|]; [|discriminate].
  destruct (truthyString c) eqn:E; [|discriminate].
  now apply truthyString_true.
Qed.

Lemma finalizeReport_appends (d : Draft.t) (coords : Coordinates.t)
      (hood : option string) :
  scriptAppendsOnly hasCategory (finalizeReport d coords hood).
Proof.
  cbn. repeat split. intros id timestamp. apply newReport_hasCategory.
Qed.

Section CategoryInvariant.

Variable generateContent :
  GeminiService.Prompt -> Attempt GeminiService.GenerateContentResponse.
Variable parseAiResponse : string -> Attempt AiResponse.t.
Variable parseLocation : string -> Attempt LocationExtractionResponse.t.
Variable clock : nat -> Z.

Lemma handler_appends (s : State) (e : Event) :
  scriptAppendsOnly hasCategory
    (handler generateContent parseAiResponse parseLocation s e).
Proof.
  destruct e as [|text0 image|value|method device|coords| |v]; cbn [handler].
  - unfold onMount, processBotResponse.
    destruct (_ =? _)%nat; [|exact I].
    destruct (stepEqb _ _); cbn; tauto.
  - unfold handleUserMessage.
    apply scriptAppendsOnly_app. split.
    { destruct image as [i|]; [destruct (truthyString i)|]; cbn; tauto. }
    apply scriptAppendsOnly_app. split; [cbn; tauto|].
    destruct (stepEqb _ CATEGORY_SELECTION || stepEqb _ SUBCATEGORY_SELECTION).
    { apply scriptAppendsOnly_app. split; [cbn; tauto|].
      apply scriptAppendsOnly_app. split; [|cbn; tauto].
      destruct (inferCategoryFromText _ _) as [c|]; [destruct (truthyString c)|];
        cbn; tauto. }
    destruct (stepEqb _ DESCRIPTION); [cbn; tauto|].
    destruct (stepEqb _ LOCATION_INPUT_TEXT); [|exact I].
    apply scriptAppendsOnly_app. split; [cbn; tauto|].
    apply scriptAppendsOnly_app. split; [apply finalizeReport_appends | cbn; tauto].
  - unfold handleQuickReply, handlePostCompletionAction.
    destruct (stepEqb _ CATEGORY_SELECTION).
    { apply scriptAppendsOnly_app. split; [cbn; tauto|].
      destruct (Obj.get SUB_CATEGORIES value) as [options|];
        [destruct (0 <? List.length options)%nat|]; cbn; tauto. }
    destruct (stepEqb _ SUBCATEGORY_SELECTION); [cbn; tauto|].
    destruct (stepEqb _ COMPLETED); [|exact I].
    destruct (String.eqb value "NEW_REPORT"); [cbn; tauto|].
    destruct (String.eqb value "VIEW_MAP"); cbn; tauto.
  - unfold handleLocationRequest.
    destruct method; [|cbn; tauto..].
    apply scriptAppendsOnly_app. split; [cbn; tauto|].
    destruct device; [cbn; tauto | | cbn; tauto].
    apply scriptAppendsOnly_app. split; [cbn; tauto | apply finalizeReport_appends].
  - unfold handleMapLocationSelect.
    apply scriptAppendsOnly_app. split; [cbn; tauto | apply finalizeReport_appends].
  - cbn. tauto.
  - cbn. tauto.
Qed.

(** Whatever the events, the transport and the clock, every report of the
    collection has a category that is not empty. *)
Lemma reports_have_category (events : list Event) :
  forall w : World,
    Forall hasCategory w.(state).(reports) ->
    Forall hasCategory
      (session generateContent parseAiResponse parseLocation clock events w)
        .(state).(reports).
Proof.
  induction events as [|e events IH]; intros w Hw; cbn [session fold_left].
  - assumption.
  - apply IH. unfold dispatch. apply runEvent_appends; [apply handler_appends | assumption].
Qed.

End CategoryInvariant.

(* ================================================================= *)
(** * Further properties of the controller *)

(* ----------------------------------------------------------------- *)
(** ** The transcript and the collection only grow *)

Lemma extends_refl {A : Type} (l : list A) : extends l l.
Proof. exists []. now rewrite app_nil_r. Qed.

Lemma extends_trans {A : Type} (l1 l2 l3 : list A) :
  extends l1 l2 -> extends l2 l3 -> extends l1 l3.
Proof. intros [a ->] [b ->]. exists (a ++ b). now rewrite app_assoc. Qed.

Section GrowthFacts.

Variable clock : nat -> Z.

Lemma runCmd_grows (t : nat) (c : Cmd) (w : World) (pending : list Timer) :
  let w' := fst (runCmd clock t c w pending) in
  extends w.(state).(messages) w'.(state).(messages)
  /\ extends w.(state).(reports) w'.(state).(reports).
Proof.
  destruct c; cbn [runCmd fst state messages reports onState];
    split; try apply extends_refl; eexists; reflexivity.
Qed.

Lemma runScript_grows (t : nat) (script : list Cmd) :
  forall (w : World) (pending : list Timer),
    let w' := fst (runScript clock t script w pending) in
    extends w.(state).(messages) w'.(state).(messages)
    /\ extends w.(state).(reports) w'.(state).(reports).
Proof.
  induction script as [|c script IH]; intros w pending; cbn [runScript].
  - split; apply extends_refl.
  - destruct (runCmd_grows t c w pending) as [Hm Hr].
    destruct (runCmd clock t c w pending) as [w1 pending1]. cbn [fst] in Hm, Hr.
    destruct (IH w1 pending1) as [Hm' Hr'].
    split; eapply extends_trans; eassumption.
Qed.

Lemma fireTimers_grows (fuel : nat) :
  forall (pending : list Timer) (w : World),
    let w' := fireTimers clock fuel pending w in
    extends w.(state).(messages) w'.(state).(messages)
    /\ extends w.(state).(reports) w'.(state).(reports).
Proof.
  induction fuel as [|fuel IH]; intros pending w; cbn [fireTimers].
  - split; apply extends_refl.
  - destruct (nextTimer pending) as [[[due callback] rest]|];
      [|split; apply extends_refl].
    destruct (runScript_grows due callback w rest) as [Hm Hr].
    destruct (runScript clock due callback w rest) as [w1 pending1].
    cbn [fst] in Hm, Hr. destruct (IH pending1 w1) as [Hm' Hr'].
    split; eapply extends_trans; eassumption.
Qed.

Lemma runEvent_grows (script : list Cmd) (w : World) :
  let w' := runEvent clock script w in
  extends w.(state).(messages) w'.(state).(messages)
  /\ extends w.(state).(reports) w'.(state).(reports).
Proof.
  unfold runEvent.
  destruct (runScript_grows 0 script w []) as [Hm Hr].
  destruct (runScript clock 0 script w []) as [w1 pending1]. cbn [fst] in Hm, Hr.
  destruct (fireTimers_grows (pendingTimeouts pending1) pending1 w1) as [Hm' Hr'].
  split; eapply extends_trans; eassumption.
Qed.

(** The reports in the collection plus those the pending timers will
    append. *)
Lemma pendingAppends_app (p q : list Timer) :
  pendingAppends (p ++ q) = (pendingAppends p + pendingAppends q)%nat.
Proof. unfold pendingAppends. now rewrite map_app, list_sum_app. Qed.

Lemma pendingAppends_cons (t : Timer) (p : list Timer) :
  pendingAppends (t :: p) = (scriptAppends (snd t) + pendingAppends p)%nat.
Proof. reflexivity. Qed.

Lemma scriptAppends_cons (c : Cmd) (script : list Cmd) :
  scriptAppends (c :: script) = (appendsAll c + scriptAppends script)%nat.
Proof. reflexivity. Qed.

Lemma scriptAppends_app (a b : list Cmd) :
  scriptAppends (a ++ b) = (scriptAppends a + scriptAppends b)%nat.
Proof. unfold scriptAppends. now rewrite map_app, list_sum_app. Qed.

Lemma runCmd_count (t : nat) (c : Cmd) (w : World) (pending : list Timer) :
  (List.length (fst (runCmd clock t c w pending)).(state).(reports)
   + pendingAppends (snd (runCmd clock t c w pending)))%nat
  = (List.length w.(state).(reports) + pendingAppends pending + appendsAll c)%nat.
Proof.
  destruct c; cbn [runCmd fst snd state reports onState appendsAll]; try lia.
  - rewrite length_app. cbn [List.length]. lia.
  - rewrite pendingAppends_app, pendingAppends_cons. cbn [snd].
    change (pendingAppends []) with 0%nat.
    change (list_sum (List.map appendsAll callback)) with (scriptAppends callback).
    lia.
Qed.

Lemma runScript_count (t : nat) (script : list Cmd) :
  forall (w : World) (pending : list Timer),
    (List.length (fst (runScript clock t script w pending)).(state).(reports)
     + pendingAppends (snd (runScript clock t script w pending)))%nat
    = (List.length w.(state).(reports) + pendingAppends pending
       + scriptAppends script)%nat.
Proof.
  induction script as [|c script IH]; intros w pending; cbn [runScript].
  - cbn [fst snd]. change (scriptAppends []) with 0%nat. lia.
  - pose proof (runCmd_count t c w pending) as Hc.
    destruct (runCmd clock t c w pending) as [w1 pending1]. cbn [fst snd] in Hc.
    rewrite IH, scriptAppends_cons. lia.
Qed.

Lemma nextTimer_count (pending : list Timer) (t : Timer) (rest : list Timer) :
  nextTimer pending = Some (t, rest) ->
  pendingAppends pending = (scriptAppends (snd t) + pendingAppends rest)%nat.
Proof.
  revert t rest. induction pending as [|a pending IH]; intros t rest;
    cbn [nextTimer].
  - discriminate.
  - rewrite pendingAppends_cons.
    destruct (nextTimer pending) as [[t' rest']|] eqn:Hn.
    + specialize (IH _ _ eq_refl).
      destruct (fst t' <? fst a)%nat; intros H; injection H as <- <-.
      * rewrite pendingAppends_cons, IH. lia.
      * reflexivity.
    + intros H; injection H as <- <-. reflexivity.
Qed.

Lemma nextTimer_None (pending : list Timer) :
  nextTimer pending = None -> pending = [].
Proof.
  destruct pending as [|a pending]; [reflexivity|]. cbn [nextTimer].
  destruct (nextTimer pending) as [[t' rest']|]; [|discriminate].
  destruct (fst t' <? fst a)%nat; discriminate.
Qed.

(** With fuel for every timer, all the pending callbacks run: the
    collection ends with the reports they append. *)
Lemma fireTimers_count (fuel : nat) :
  forall (pending : list Timer) (w : World),
    (pendingTimeouts pending <= fuel)%nat ->
    List.length (fireTimers clock fuel pending w).(state).(reports)
    = (List.length w.(state).(reports) + pendingAppends pending)%nat.
Proof.
  induction fuel as [|fuel IH]; intros pending w Hfuel; cbn [fireTimers].
  - destruct pending as [|t pending].
    + change (pendingAppends []) with 0%nat. lia.
    + rewrite pendingTimeouts_cons in Hfuel. lia.
  - destruct (nextTimer pending) as [[[due callback] rest]|] eqn:Hn.
    + pose proof (nextTimer_size _ _ _ Hn) as Hsize.
      pose proof (nextTimer_count _ _ _ Hn) as Hcount. cbn [snd] in Hsize, Hcount.
      pose proof (runScript_size clock due callback w rest) as Hs.
      pose proof (runScript_count due callback w rest) as Hc.
      destruct (runScript clock due callback w rest) as [w1 pending1].
      cbn [fst snd] in Hs, Hc. rewrite IH by lia. lia.
    + apply nextTimer_None in Hn. subst pending.
      change (pendingAppends []) with 0%nat. lia.
Qed.

Lemma runEvent_count (script : list Cmd) (w : World) :
  List.length (runEvent clock script w).(state).(reports)
  = (List.length w.(state).(reports) + scriptAppends script)%nat.
Proof.
  unfold runEvent.
  pose proof (runScript_count 0 script w []) as Hc.
  destruct (runScript clock 0 script w []) as [w1 pending1]. cbn [fst snd] in Hc.
  rewrite fireTimers_count by lia.
  change (pendingAppends []) with 0%nat in Hc. lia.
Qed.

End GrowthFacts.

Section GrowthOfSessions.

Variable generateContent :
  GeminiService.Prompt -> Attempt GeminiService.GenerateContentResponse.
Variable parseAiResponse : string -> Attempt AiResponse.t.
Variable parseLocation : string -> Attempt LocationExtractionResponse.t.
Variable clock : nat -> Z.

Lemma finalizeReport_appends_one (d : Draft.t) (coords : Coordinates.t)
      (hood : option string) :
  scriptAppends (finalizeReport d coords hood) = 1%nat.
Proof. reflexivity. Qed.

Lemma handler_appends_count (s : State) (e : Event) :
  scriptAppends (handler generateContent parseAiResponse parseLocation s e)
  = if finalizes s e then 1%nat else 0%nat.
Proof.
  destruct e as [|text0 image|value|method device|coords| |v];
    cbn [handler finalizes].
  - unfold onMount, processBotResponse.
    destruct (_ =? _)%nat; [|reflexivity]. destruct (stepEqb _ _); reflexivity.
  - unfold handleUserMessage. rewrite !scriptAppends_app.
    replace (scriptAppends
               match image with
               | Some i =>
                   if truthyString i
                   then [setTempReportData (Draft.withImageUrl i)] else []
               | None => []
               end) with 0%nat
      by (destruct image as [i|]; [destruct (truthyString i)|]; reflexivity).
    destruct (currentStep s); cbn [stepEqb orb]; rewrite ?scriptAppends_app;
      try reflexivity.
    + destruct (inferCategoryFromText _ _) as [c|];
        [destruct (truthyString c)|]; reflexivity.
    + destruct (inferCategoryFromText _ _) as [c|];
        [destruct (truthyString c)|]; reflexivity.
  - unfold handleQuickReply, handlePostCompletionAction.
    destruct (currentStep s); cbn [stepEqb]; try reflexivity.
    + rewrite scriptAppends_app.
      destruct (Obj.get SUB_CATEGORIES value) as [options|];
        [destruct (0 <? List.length options)%nat|]; reflexivity.
    + destruct (String.eqb value "NEW_REPORT"); [reflexivity|].
      destruct (String.eqb value "VIEW_MAP"); reflexivity.
  - destruct method, device; reflexivity.
  - reflexivity.
  - reflexivity.
  - reflexivity.
Qed.

End GrowthOfSessions.

(** X1. Whatever the events, the transport and the clock, a session leaves
    the messages and the reports that were there in place, unchanged and in
    their order: the transcript and the collection after it are the ones
    before with something added at the end. *)
Theorem session_only_appends :
  forall (generateContent :
            GeminiService.Prompt -> Attempt GeminiService.GenerateContentResponse)
         (parseAiResponse : string -> Attempt AiResponse.t)
         (parseLocation : string -> Attempt LocationExtractionResponse.t)
         (clock : nat -> Z) (events : list Event) (w : World),
    let w' := session generateContent parseAiResponse parseLocation clock events w in
    extends w.(state).(messages) w'.(state).(messages)
    /\ extends w.(state).(reports) w'.(state).(reports).
Proof.
  intros gc pa pl clock events. induction events as [|e events IH]; intros w.
  - split; apply extends_refl.
  - cbn [session fold_left].
    destruct (runEvent_grows clock (handler gc pa pl w.(state) e) w) as [Hm Hr].
    destruct (IH (dispatch gc pa pl clock w e)) as [Hm' Hr'].
    split; eapply extends_trans; eassumption.
Qed.

(** X2. An event appends one report when it ends a report (a map tap, a GPS
    position, a text sent in LOCATION_INPUT_TEXT) and none otherwise; the
    reports before it stay as they are. *)
Theorem one_report_per_location :
  forall (generateContent :
            GeminiService.Prompt -> Attempt GeminiService.GenerateContentResponse)
         (parseAiResponse : string -> Attempt AiResponse.t)
         (parseLocation : string -> Attempt LocationExtractionResponse.t)
         (clock : nat -> Z) (w : World) (e : Event),
    let w' := dispatch generateContent parseAiResponse parseLocation clock w e in
    if finalizes w.(state) e
    then exists r, w'.(state).(reports) = w.(state).(reports) ++ [r]
    else w'.(state).(reports) = w.(state).(reports).
Proof.
  intros gc pa pl clock w e w'.
  destruct (runEvent_grows clock (handler gc pa pl w.(state) e) w) as [_ [added Hr]].
  pose proof (runEvent_count clock (handler gc pa pl w.(state) e) w) as Hc.
  rewrite handler_appends_count in Hc.
  fold (dispatch gc pa pl clock w e) in Hr, Hc. fold w' in Hr, Hc.
  rewrite Hr, length_app in Hc.
  destruct (finalizes (state w) e).
  - destruct added as [|r [|r' added]]; cbn [List.length] in Hc; try lia.
    exists r. exact Hr.
  - destruct added as [|r added]; cbn [List.length] in Hc; [|lia].
    now rewrite app_nil_r in Hr.
Qed.

(* ----------------------------------------------------------------- *)
(** ** The busy flags *)

(** Every conditional of a handler's script decided, one case each. *)
Ltac decide_script :=
  repeat match goal with
         | |- context [if ?c then _ else _] => destruct c eqn:?
         | |- context [match ?x with Some _ => _ | None => _ end] => destruct x eqn:?
         end.

Section FlagFacts.

Variable generateContent :
  GeminiService.Prompt -> Attempt GeminiService.GenerateContentResponse.
Variable parseAiResponse : string -> Attempt AiResponse.t.
Variable parseLocation : string -> Attempt LocationExtractionResponse.t.
Variable clock : nat -> Z.


End FlagFacts.



(* ----------------------------------------------------------------- *)
(** ** Quick replies *)



Section QuickReplyFacts.

Variable generateContent :
  GeminiService.Prompt -> Attempt GeminiService.GenerateContentResponse.
Variable parseAiResponse : string -> Attempt AiResponse.t.
Variable parseLocation : string -> Attempt LocationExtractionResponse.t.
Variable clock : nat -> Z.

Let dispatch := dispatch generateContent parseAiResponse parseLocation clock.




Lemma quick_reply_ignored (w : World) (value : string) :
  w.(state).(currentStep) <> CATEGORY_SELECTION ->
  w.(state).(currentStep) <> SUBCATEGORY_SELECTION ->
  w.(state).(currentStep) <> COMPLETED
  \/ (value <> "NEW_REPORT" /\ value <> "VIEW_MAP") ->
  dispatch w (QuickReply value) = w.
Proof.
  destruct w as [[v ms rs step d ty wl mp] k]. cbn [state currentStep].
  intros Hc Hs Hd.
  unfold dispatch, App.dispatch, handler, handleQuickReply, handlePostCompletionAction.
  cbn [state currentStep].
  destruct step; try contradiction; cbn [stepEqb]; try reflexivity.
  destruct Hd as [Hd | [Hn Hv]]; [contradiction|].
  destruct (String.eqb_spec value "NEW_REPORT"); [contradiction|].
  destruct (String.eqb_spec value "VIEW_MAP"); [contradiction|].
  reflexivity.
Qed.


End QuickReplyFacts.

(* ----------------------------------------------------------------- *)
(** ** Texts, the first render and the end of a report *)

Section TextFacts.

Variable generateContent :
  GeminiService.Prompt -> Attempt GeminiService.GenerateContentResponse.
Variable parseAiResponse : string -> Attempt AiResponse.t.
Variable parseLocation : string -> Attempt LocationExtractionResponse.t.
Variable clock : nat -> Z.

Let dispatch := dispatch generateContent parseAiResponse parseLocation clock.

Lemma description_sent (w : World) (text0 : string) (image : option string) :
  w.(state).(currentStep) = DESCRIPTION ->
  let d := w.(state).(tempReportData) in
  let fullDescription := fullDescriptionOf d text0 in
  let analysis :=
    GeminiService.analyzeReportDescription generateContent parseAiResponse
      fullDescription (categoryText d) in
  dispatch w (SendMessage text0 image)
  = mkWorld
      (mkState w.(state).(view)
         (w.(state).(messages)
            ++ [ newMessage clock w.(clockReads) text0 USER false None false image;
                 newMessage clock (2 + w.(clockReads)) analysis.(AiResponse.text)
                   BOT false None false None;
                 newMessage clock (4 + w.(clockReads))
                   "Como você prefere informar a localização da ocorrência?"
                   BOT false None true None ])
         w.(state).(reports) LOCATION_METHOD_SELECTION
         (Draft.withDescription fullDescription analysis (withImage image d))
         false w.(state).(waitingForLocation) w.(state).(showMapPicker))
      (6 + w.(clockReads)).
Proof.
  destruct w as [[v ms rs step d ty wl mp] k]. cbn [state currentStep clockReads].
  intros ->. cbv zeta.
  unfold dispatch, App.dispatch, handler, handleUserMessage.
  cbn [state currentStep stepEqb orb tempReportData].
  unfold analyzeReportDescription, fullDescriptionOf, categoryText, withImage.
  destruct image as [i|]; [destruct (truthyString i)|];
    unfold runEvent; cbn; rewrite <- !app_assoc; reflexivity.
Qed.




Lemma location_text_sent (w : World) (text0 : string) (image : option string) :
  w.(state).(currentStep) = LOCATION_INPUT_TEXT ->
  let locationData :=
    GeminiService.extractLocationFromText generateContent parseLocation text0 in
  dispatch w (SendMessage text0 image)
  = mkWorld
      (mkState w.(state).(view)
         (w.(state).(messages)
            ++ [ newMessage clock w.(clockReads) text0 USER false None false image;
                 newMessage clock (2 + w.(clockReads))
                   locationData.(LocationExtractionResponse.confirmationText)
                   BOT false None false None;
                 registeredMessage clock (6 + w.(clockReads));
                 whatNextMessage clock (8 + w.(clockReads)) ])
         (w.(state).(reports)
            ++ [ newReport w.(state).(tempReportData)
                   locationData.(LocationExtractionResponse.coordinates)
                   (Some locationData.(LocationExtractionResponse.neighborhood))
                   (JS.toString (clock (4 + w.(clockReads))))
                   (clock (5 + w.(clockReads))) ])
         COMPLETED
         (withImage image w.(state).(tempReportData))
         false w.(state).(waitingForLocation) w.(state).(showMapPicker))
      (10 + w.(clockReads)).
Proof.
  destruct w as [[v ms rs step d ty wl mp] k]. cbn [state currentStep clockReads].
  intros ->. cbv zeta.
  unfold dispatch, App.dispatch, handler, handleUserMessage, withImage.
  cbn [state currentStep stepEqb orb tempReportData].
  unfold extractLocationFromText.
  destruct (GeminiService.extractLocationFromText _ _ _) as [hood [la lo] conf].
  destruct image as [i|]; [destruct (truthyString i)|];
    unfold runEvent; cbn; rewrite <- !app_assoc; reflexivity.
Qed.

Lemma map_tapped (w : World) (coords : Coordinates.t) :
  dispatch w (MapLocationSelect coords)
  = mkWorld
      (mkState w.(state).(view)
         (w.(state).(messages)
            ++ [ newMessage clock w.(clockReads) "📍 Local marcado no mapa."
                   USER false None false None;
                 registeredMessage clock (4 + w.(clockReads));
                 whatNextMessage clock (6 + w.(clockReads)) ])
         (w.(state).(reports)
            ++ [ newReport w.(state).(tempReportData) coords
                   (Some "Marcado no Mapa")
                   (JS.toString (clock (2 + w.(clockReads))))
                   (clock (3 + w.(clockReads))) ])
         COMPLETED w.(state).(tempReportData) false
         w.(state).(waitingForLocation) false)
      (8 + w.(clockReads)).
Proof.
  destruct w as [[v ms rs step d ty wl mp] k].
  unfold dispatch, App.dispatch, runEvent. cbn. rewrite <- !app_assoc. reflexivity.
Qed.

Lemma gps_received (w : World) (latitude longitude : Q) :
  dispatch w (LocationRequest gps (position latitude longitude))
  = mkWorld
      (mkState w.(state).(view)
         (w.(state).(messages)
            ++ [ newMessage clock w.(clockReads) "📍 Localização GPS recebida."
                   USER false None false None;
                 registeredMessage clock (4 + w.(clockReads));
                 whatNextMessage clock (6 + w.(clockReads)) ])
         (w.(state).(reports)
            ++ [ newReport w.(state).(tempReportData)
                   (Coordinates.mk latitude longitude) (Some "Localização GPS")
                   (JS.toString (clock (2 + w.(clockReads))))
                   (clock (3 + w.(clockReads))) ])
         COMPLETED w.(state).(tempReportData) false false
         w.(state).(showMapPicker))
      (8 + w.(clockReads)).
Proof.
  destruct w as [[v ms rs step d ty wl mp] k].
  unfold dispatch, App.dispatch, runEvent. cbn. rewrite <- !app_assoc. reflexivity.
Qed.


End TextFacts.







(** X7. A quick reply does nothing at all, not even a message, in the steps
    GREETING, DESCRIPTION, LOCATION_METHOD_SELECTION, LOCATION_INPUT_TEXT and
    LOCATION_INPUT_MAP, and in COMPLETED unless its value is NEW_REPORT or
    VIEW_MAP. *)
Theorem quick_reply_out_of_turn :
  forall (generateContent :
            GeminiService.Prompt -> Attempt GeminiService.GenerateContentResponse)
         (parseAiResponse : string -> Attempt AiResponse.t)
         (parseLocation : string -> Attempt LocationExtractionResponse.t)
         (clock : nat -> Z) (w : World) (value : string),
    w.(state).(currentStep) <> CATEGORY_SELECTION ->
    w.(state).(currentStep) <> SUBCATEGORY_SELECTION ->
    w.(state).(currentStep) <> COMPLETED
    \/ (value <> "NEW_REPORT" /\ value <> "VIEW_MAP") ->
    dispatch generateContent parseAiResponse parseLocation clock w (QuickReply value)
    = w.
Proof.
  intros gc pa pl clock w value. apply quick_reply_ignored.
Qed.

(** X7 on a category button pressed while the bot waits for the place. *)
Lemma quick_reply_out_of_turn_witness :
  dispatch sampleTransport parseSeverity4 parseBarra sampleClock
           (worldAt LOCATION_INPUT_TEXT draftAnalysed)
           (QuickReply "Rachaduras e Estruturas")
  = worldAt LOCATION_INPUT_TEXT draftAnalysed.
Proof.
  apply (quick_reply_out_of_turn sampleTransport parseSeverity4 parseBarra sampleClock
           (worldAt LOCATION_INPUT_TEXT draftAnalysed) "Rachaduras e Estruturas").
  - discriminate.
  - discriminate.
  - left. discriminate.
Defined.



(** X9. A text sent in DESCRIPTION is analysed together with the
    sub-category: the description kept on the draft and sent to the analysis
    is "[sub-category] - text" when a sub-category was chosen and the text
    alone otherwise; the draft takes the severity and the text of the
    analysis and keeps its category and sub-category; an image sent with the
    text is kept; the bot answers with the analysis, asks how to give the
    place and the step becomes LOCATION_METHOD_SELECTION. *)
Theorem description_analysed :
  forall (generateContent :
            GeminiService.Prompt -> Attempt GeminiService.GenerateContentResponse)
         (parseAiResponse : string -> Attempt AiResponse.t)
         (parseLocation : string -> Attempt LocationExtractionResponse.t)
         (clock : nat -> Z) (w : World) (text0 : string) (image : option string),
    w.(state).(currentStep) = DESCRIPTION ->
    let d := w.(state).(tempReportData) in
    let w' := dispatch generateContent parseAiResponse parseLocation clock w
                       (SendMessage text0 image) in
    let d' := w'.(state).(tempReportData) in
    exists fullDescription,
      let analysis :=
        GeminiService.analyzeReportDescription generateContent parseAiResponse
          fullDescription (categoryText d) in
      (forall sub, d.(Draft.subcategory) = Some sub -> sub <> "" ->
                   fullDescription = ("[" ++ sub ++ "] - " ++ text0)%string)
      /\ (d.(Draft.subcategory) = None \/ d.(Draft.subcategory) = Some "" ->
          fullDescription = text0)
      /\ d'.(Draft.description) = Some fullDescription
      /\ d'.(Draft.severity) = Some analysis.(AiResponse.severity)
      /\ d'.(Draft.aiAnalysis) = Some analysis.(AiResponse.text)
      /\ d'.(Draft.category) = d.(Draft.category)
      /\ d'.(Draft.subcategory) = d.(Draft.subcategory)
      /\ d'.(Draft.imageUrl) = (withImage image d).(Draft.imageUrl)
      /\ w'.(state).(currentStep) = LOCATION_METHOD_SELECTION
      /\ w'.(state).(reports) = w.(state).(reports)
      /\ w'.(state).(messages)
         = w.(state).(messages)
             ++ [ newMessage clock w.(clockReads) text0 USER false None false image;
                  newMessage clock (2 + w.(clockReads)) analysis.(AiResponse.text)
                    BOT false None false None;
                  newMessage clock (4 + w.(clockReads))
                    "Como você prefere informar a localização da ocorrência?"
                    BOT false None true None ].
Proof.
  intros gc pa pl clock w text0 image Hstep. cbv zeta.
  exists (fullDescriptionOf w.(state).(tempReportData) text0).
  pose proof (description_sent gc pa pl clock w text0 image Hstep) as Hw.
  cbv zeta in Hw. rewrite Hw. cbn [state tempReportData currentStep reports messages].
  split; [|split].
  - intros sub Hs Hne. unfold fullDescriptionOf. rewrite Hs.
    apply truthyString_true in Hne. now rewrite Hne.
  - intros [Hs | Hs]; unfold fullDescriptionOf; rewrite Hs; reflexivity.
  - repeat split;
      destruct image as [i|]; cbn; try destruct (truthyString i); reflexivity.
Qed.

(** X9 on the text "ok" after the sub-category "Bueiro entupido". *)
Lemma description_analysed_witness :
  (dispatch sampleTransport parseSeverity4 parseBarra sampleClock
            (worldAt DESCRIPTION draftBueiro)
            (SendMessage "ok" None)).(state).(tempReportData)
  = draftAnalysed.
Proof.
  destruct (description_analysed sampleTransport parseSeverity4 parseBarra sampleClock
              (worldAt DESCRIPTION draftBueiro) "ok" None eq_refl)
    as (full & Hsub & _ & _).
  cbv zeta in Hsub.
  pose proof (Hsub "Bueiro entupido" eq_refl ltac:(discriminate)) as E.
  clear Hsub. subst full. reflexivity.
Defined.








(** X13. An image sent together with the place in LOCATION_INPUT_TEXT is
    stored on the draft and shown in the transcript, but the report made by
    that message carries the image the draft had before it: the report is
    built from the draft as it was when the message arrived. *)
Theorem image_sent_with_place_not_on_report :
  forall (generateContent :
            GeminiService.Prompt -> Attempt GeminiService.GenerateContentResponse)
         (parseAiResponse : string -> Attempt AiResponse.t)
         (parseLocation : string -> Attempt LocationExtractionResponse.t)
         (clock : nat -> Z) (w : World) (text0 i : string),
    w.(state).(currentStep) = LOCATION_INPUT_TEXT ->
    i <> "" ->
    let w' := dispatch generateContent parseAiResponse parseLocation clock w
                       (SendMessage text0 (Some i)) in
    w'.(state).(tempReportData).(Draft.imageUrl) = Some i
    /\ (exists m, In m w'.(state).(messages)
                  /\ m.(Message.sender) = USER /\ m.(Message.image) = Some i)
    /\ exists r,
        w'.(state).(reports) = w.(state).(reports) ++ [r]
        /\ r.(Report.imageUrl) = w.(state).(tempReportData).(Draft.imageUrl).
Proof.
  intros gc pa pl clock w text0 i Hstep Hi. cbv zeta.
  pose proof (location_text_sent gc pa pl clock w text0 (Some i) Hstep) as Hw.
  cbv zeta in Hw. rewrite Hw. cbn [state tempReportData reports messages].
  apply truthyString_true in Hi.
  split; [unfold withImage; rewrite Hi; reflexivity|]. split.
  - eexists. split; [apply in_or_app; right; left; reflexivity|]. split; reflexivity.
  - eexists. split; reflexivity.
Qed.

(** X13 on a draft without image. *)
Lemma image_sent_with_place_not_on_report_witness :
  let w' := dispatch sampleTransport parseSeverity4 parseBarra sampleClock
                     (worldAt LOCATION_INPUT_TEXT draftAnalysed)
                     (SendMessage "Barra" (Some "data:image/png;base64,AAAA")) in
  w'.(state).(tempReportData).(Draft.imageUrl) = Some "data:image/png;base64,AAAA"
  /\ List.map Report.imageUrl w'.(state).(reports) = [None].
Proof.
  cbv zeta.
  destruct (image_sent_with_place_not_on_report sampleTransport parseSeverity4
              parseBarra sampleClock (worldAt LOCATION_INPUT_TEXT draftAnalysed)
              "Barra" "data:image/png;base64,AAAA" eq_refl ltac:(discriminate))
    as (Hd & _ & r & Hr & Hi).
  split; [exact Hd|]. rewrite Hr. cbn [List.map app worldAt state reports].
  now rewrite Hi.
Defined.

(** X14. Ending a report does not empty the draft, and the location
    handlers do not look at the step: a GPS position that arrives after a
    map tap has ended the report appends a second report with the same
    content. *)
Theorem finished_draft_is_reported_again :
  forall (generateContent :
            GeminiService.Prompt -> Attempt GeminiService.GenerateContentResponse)
         (parseAiResponse : string -> Attempt AiResponse.t)
         (parseLocation : string -> Attempt LocationExtractionResponse.t)
         (clock : nat -> Z) (w : World) (coords : Coordinates.t)
         (latitude longitude : Q),
    let dispatch := dispatch generateContent parseAiResponse parseLocation clock in
    let w1 := dispatch w (MapLocationSelect coords) in
    let w2 := dispatch w1 (LocationRequest gps (position latitude longitude)) in
    w1.(state).(currentStep) = COMPLETED
    /\ w1.(state).(tempReportData) = w.(state).(tempReportData)
    /\ exists r1 r2,
        w2.(state).(reports) = w.(state).(reports) ++ [r1; r2]
        /\ sameContent r1 r2
        /\ r1.(Report.location) = coords
        /\ r2.(Report.location) = Coordinates.mk latitude longitude.
Proof.
  intros gc pa pl clock w coords la lo. cbv zeta.
  rewrite gps_received, map_tapped. cbn [state currentStep tempReportData reports].
  split; [reflexivity|]. split; [reflexivity|].
  eexists _, _. split; [rewrite <- app_assoc; reflexivity|].
  repeat split.
Qed.

(* ----------------------------------------------------------------- *)
(** ** What every report has *)

Lemma nonempty_or (a : option string) (b : string) : b <> "" -> orString a b <> "".
Proof.
  intros Hb. unfold orString. destruct a as [s|]; [|assumption].
  destruct (truthyString s) eqn:E; [|assumption]. now apply truthyString_true.
Qed.

Lemma newReport_wellFormed (d : Draft.t) (coords : Coordinates.t)
      (hood : option string) (id : string) (timestamp : Z) :
  wellFormed (newReport d coords hood id timestamp).
Proof.
  unfold wellFormed, newReport.
  cbn [Report.category Report.description Report.aiAnalysis Report.status].
  repeat split; apply nonempty_or; discriminate.
Qed.

Section WellFormedInvariant.

Variable generateContent :
  GeminiService.Prompt -> Attempt GeminiService.GenerateContentResponse.
Variable parseAiResponse : string -> Attempt AiResponse.t.
Variable parseLocation : string -> Attempt LocationExtractionResponse.t.
Variable clock : nat -> Z.

Lemma finalizeReport_wellFormed (d : Draft.t) (coords : Coordinates.t)
      (hood : option string) :
  scriptAppendsOnly wellFormed (finalizeReport d coords hood).
Proof.
  cbn. repeat split; try apply nonempty_or; discriminate.
Qed.

Lemma handler_wellFormed (s : State) (e : Event) :
  scriptAppendsOnly wellFormed
    (handler generateContent parseAiResponse parseLocation s e).
Proof.
  destruct e as [|text0 image|value|method device|coords| |v]; cbn [handler];
    unfold onMount, processBotResponse, handleUserMessage, handleQuickReply,
      handlePostCompletionAction, handleLocationRequest, handleMapLocationSelect;
    try (destruct method, device);
    rewrite ?scriptAppendsOnly_app;
    decide_script;
    rewrite ?scriptAppendsOnly_app;
    repeat match goal with
           | |- _ /\ _ => split
           | |- scriptAppendsOnly _ (finalizeReport _ _ _) =>
               apply finalizeReport_wellFormed
           end;
    cbn; tauto.
Qed.

End WellFormedInvariant.

(** X15. Whatever the events, the transport and the clock, every report
    of a session that starts from the initial state is well formed: its
    category, its description and its analysis text are not empty, and its
    status is pending. *)
Theorem reports_well_formed :
  forall (generateContent :
            GeminiService.Prompt -> Attempt GeminiService.GenerateContentResponse)
         (parseAiResponse : string -> Attempt AiResponse.t)
         (parseLocation : string -> Attempt LocationExtractionResponse.t)
         (clock : nat -> Z) (events : list Event),
    Forall wellFormed
      (session generateContent parseAiResponse parseLocation clock events
               initialWorld).(state).(reports).
Proof.
  intros gc pa pl clock events.
  assert (H : forall w, Forall wellFormed w.(state).(reports) ->
                        Forall wellFormed
                          (session gc pa pl clock events w).(state).(reports)).
  { induction events as [|e events IH]; intros w Hw; cbn [session fold_left].
    - assumption.
    - apply IH. unfold dispatch.
      apply runEvent_appends; [apply handler_wellFormed | assumption]. }
  apply H. constructor.
Qed.

(* ================================================================= *)
(** * Further properties of the gateway *)

Lemma includes_In (xs : list string) (x : string) :
  includes xs x = true <-> In x xs.
Proof.
  unfold includes. rewrite existsb_exists. split.
  - intros (y & Hy & Heq). apply String.eqb_eq in Heq. now subst.
  - intros Hin. exists x. split; [assumption | apply String.eqb_refl].
Qed.

Lemma category_values_truthy (c : string) :
  In c ReportCategory_values -> truthyString c = true.
Proof.
  intros Hin. cbn in Hin.
  repeat destruct Hin as [<- | Hin]; try contradiction; reflexivity.
Qed.

(** X16. [inferCategoryFromText] answers a category exactly when the
    transport returns a text that, once trimmed, is one of the seven values
    of the enum ("Outro" included), and then it answers that trimmed text;
    in every other case (a throw, no text, the text "null", any other text)
    it answers null. *)
Theorem inferCategory_exactly :
  forall (generateContent :
            GeminiService.Prompt -> Attempt GeminiService.GenerateContentResponse)
         (text0 c : string),
    GeminiService.inferCategoryFromText generateContent text0 = Some c
    <-> exists raw,
        generateContent (GeminiService.CategoryPrompt text0)
        = Ok {| GeminiService.text := Some raw |}
        /\ trim raw = c
        /\ In c ReportCategory_values.
Proof.
  intros gc text0 c. unfold GeminiService.inferCategoryFromText. split.
  - destruct (gc (GeminiService.CategoryPrompt text0)) as [[[raw|]]|];
      unfold JS.bind, tryCatch; cbn [GeminiService.text option_map];
      try discriminate.
    destruct (truthyString (trim raw)); cbn [andb]; try discriminate.
    destruct (includes ReportCategory_values (trim raw)) eqn:Hi; try discriminate.
    intros H; injection H as <-. exists raw. repeat split.
    now apply includes_In.
  - intros (raw & -> & <- & Hin).
    unfold JS.bind, tryCatch. cbn [GeminiService.text option_map].
    rewrite (category_values_truthy _ Hin).
    apply includes_In in Hin. now rewrite Hin.
Qed.

(** An answer wrapped in white space is accepted, the text "null" is not. *)
Example inferCategory_samples :
  GeminiService.inferCategoryFromText
    (fun _ => Ok {| GeminiService.text := Some (" Outro" ++ JS.bytes [10]%nat)%string |})
    "algo estranho" = Some "Outro"
  /\ GeminiService.inferCategoryFromText
       (fun _ => Ok {| GeminiService.text := Some "null" |}) "oi" = None
  /\ GeminiService.inferCategoryFromText
       (fun _ => Ok {| GeminiService.text := Some "rachaduras e estruturas" |})
       "parede" = None.
Proof. repeat split. Qed.

(** X17. When the transport answers a structured prompt with a text that is
    not empty, [analyzeReportDescription] and [extractLocationFromText]
    return what [JSON.parse] reads from it, unchanged and unchecked (any
    severity, any coordinates), and the fixed fallback when [JSON.parse]
    throws on it. *)
Theorem structured_answers_parsed_or_fallback :
  forall (generateContent :
            GeminiService.Prompt -> Attempt GeminiService.GenerateContentResponse)
         (parseAiResponse : string -> Attempt AiResponse.t)
         (parseLocation : string -> Attempt LocationExtractionResponse.t)
         (description selectedCategory text0 jsonText : string),
    jsonText <> "" ->
    (generateContent (GeminiService.AnalyzePrompt selectedCategory description)
     = Ok {| GeminiService.text := Some jsonText |} ->
     GeminiService.analyzeReportDescription generateContent parseAiResponse
       description selectedCategory
     = match parseAiResponse jsonText with
       | Ok r => r
       | Thrown => GeminiService.analyzeFallback
       end)
    /\ (generateContent (GeminiService.LocationPrompt text0)
        = Ok {| GeminiService.text := Some jsonText |} ->
        GeminiService.extractLocationFromText generateContent parseLocation text0
        = match parseLocation jsonText with
          | Ok r => r
          | Thrown => GeminiService.locationFallback
          end).
Proof.
  intros gc pa pl description selectedCategory text0 jsonText Hne.
  apply truthyString_true in Hne.
  split; intros Hg;
    unfold GeminiService.analyzeReportDescription,
           GeminiService.extractLocationFromText, GeminiService.requireText,
           JS.bind, tryCatch;
    rewrite Hg; cbn [GeminiService.text]; rewrite Hne; reflexivity.
Qed.

(** X17 on the sample transport, read with severity 7 and with a parser
    that throws. *)
Lemma structured_answers_parsed_or_fallback_witness :
  (GeminiService.analyzeReportDescription sampleTransport parseSeverity7 "ok"
     "Outro").(AiResponse.severity) = 7
  /\ GeminiService.analyzeReportDescription sampleTransport (fun _ => Thrown) "ok"
       "Outro" = GeminiService.analyzeFallback.
Proof.
  destruct (structured_answers_parsed_or_fallback sampleTransport parseSeverity7
              parseBarra "ok" "Outro" "Barra" "{...}" ltac:(discriminate))
    as [Ha _].
  destruct (structured_answers_parsed_or_fallback sampleTransport (fun _ => Thrown)
              parseBarra "ok" "Outro" "Barra" "{...}" ltac:(discriminate))
    as [Hb _].
  split; [rewrite (Ha eq_refl) | rewrite (Hb eq_refl)]; reflexivity.
Defined.

(** X18. [generateInitialGreeting] returns the text of the transport when
    it has one that is not empty and the canned greeting in every other
    case; it never returns the empty text. *)
Theorem greeting_is_text_or_canned :
  forall (generateContent :
            GeminiService.Prompt -> Attempt GeminiService.GenerateContentResponse),
    let greeting := GeminiService.generateInitialGreeting generateContent in
    (forall t, generateContent GeminiService.GreetingPrompt
               = Ok {| GeminiService.text := Some t |} ->
               t <> "" -> greeting = t)
    /\ ((forall t, generateContent GeminiService.GreetingPrompt
                   = Ok {| GeminiService.text := Some t |} -> t = "") ->
        greeting = GeminiService.greetingFallback)
    /\ greeting <> "".
Proof.
  intros gc greeting. subst greeting.
  unfold GeminiService.generateInitialGreeting, JS.bind, tryCatch, orString.
  split; [|split].
  - intros t -> Hne. cbn [GeminiService.text].
    apply truthyString_true in Hne. now rewrite Hne.
  - intros H. destruct (gc GeminiService.GreetingPrompt) as [[[t|]]|];
      cbn [GeminiService.text]; try reflexivity.
    rewrite (H t eq_refl). reflexivity.
  - destruct (gc GeminiService.GreetingPrompt) as [[[t|]]|];
      cbn [GeminiService.text]; try discriminate.
    destruct (truthyString t) eqn:E; [|discriminate]. now apply truthyString_true.
Qed.

(** X18 with a transport that greets, and with one that throws. *)
Lemma greeting_is_text_or_canned_witness :
  GeminiService.generateInitialGreeting greetingTransport = "Olá! Sou o EcoSalvador."
  /\ GeminiService.generateInitialGreeting sampleTransport
     = GeminiService.greetingFallback.
Proof.
  split.
  - apply (proj1 (greeting_is_text_or_canned greetingTransport)
             "Olá! Sou o EcoSalvador."); [reflexivity | discriminate].
  - apply (proj1 (proj2 (greeting_is_text_or_canned sampleTransport))).
    intros t H. discriminate H.
Defined.

(* ================================================================= *)
(** * Further properties of the dashboard *)


Section SumFacts.

Context {V : Type}.
Variable f : V -> nat.




End SumFacts.

(* ----------------------------------------------------------------- *)
(** ** The risk table counts every report once *)




(* ----------------------------------------------------------------- *)
(** ** The category chart *)



















(* ----------------------------------------------------------------- *)
(** ** The views of the severity *)

Lemma high_not_medium (s : Q) : Qle_bool 4 s = true -> Qeq_bool s 3 = false.
Proof.
  intros Hh. destruct (Qeq_bool s 3) eqn:Hm; [|reflexivity].
  apply Qle_bool_iff in Hh. apply Qeq_bool_iff in Hm. rewrite Hm in Hh.
  exfalso. revert Hh. apply Qlt_not_le. reflexivity.
Qed.

Lemma red_is_high (r : Report.t) :
  String.eqb (Dashboard.getSeverityColor r.(Report.severity)) "bg-red-500 text-white"
  = statedHigh r.
Proof.
  unfold Dashboard.getSeverityColor, statedHigh.
  destruct (Qle_bool 4 (Report.severity r)), (Qeq_bool (Report.severity r) 3);
    reflexivity.
Qed.

Lemma yellow_is_medium (r : Report.t) :
  String.eqb (Dashboard.getSeverityColor r.(Report.severity)) "bg-yellow-500 text-white"
  = statedMedium r.
Proof.
  unfold Dashboard.getSeverityColor, statedMedium.
  destruct (Qle_bool 4 (Report.severity r)) eqn:Hh.
  - now rewrite (high_not_medium _ Hh).
  - destruct (Qeq_bool (Report.severity r) 3); reflexivity.
Qed.

Lemma green_is_rest (r : Report.t) :
  String.eqb (Dashboard.getSeverityColor r.(Report.severity)) "bg-green-500 text-white"
  = neitherHighNorMedium r.
Proof.
  unfold Dashboard.getSeverityColor, neitherHighNorMedium, statedHigh, statedMedium.
  destruct (Qle_bool 4 (Report.severity r)), (Qeq_bool (Report.severity r) 3);
    reflexivity.
Qed.

Lemma countOf_ext (p q : Report.t -> bool) (reports : list Report.t) :
  (forall r, p r = q r) -> countOf p reports = countOf q reports.
Proof.
  intros H. unfold countOf. f_equal. apply filter_ext. exact H.
Qed.

Lemma slices_total (low medium high : nat) :
  list_sum (List.map Dashboard.SeverityDatum.value (slices low medium high))
  = (low + medium + high)%nat.
Proof.
  unfold slices. cbn [filter Dashboard.SeverityDatum.value].
  destruct low, medium, high; cbn; lia.
Qed.

Lemma countOf_positive (p : Report.t -> bool) (reports : list Report.t) :
  (0 < countOf p reports)%nat <-> exists r, In r reports /\ p r = true.
Proof.
  unfold countOf. split.
  - destruct (filter p reports) as [|r l] eqn:E; cbn [List.length]; [lia|].
    intros _. exists r. apply filter_In. rewrite E. now left.
  - intros (r & Hr). apply filter_In in Hr.
    destruct (filter p reports); [contradiction | cbn [List.length]; lia].
Qed.

(** X21. The views of the severity agree on every collection: the slice
    of the chart a report is counted in is the one of the colour of its
    marker (red, at least 4: critical; yellow, equal to 3: medium; green, all
    the rest: low), the slices add up to the number of reports, the critical
    indicator is the number of red markers, the status line is on alert
    exactly when there is one, and the label of the list of the latest
    reports names the same three groups. *)
Theorem severity_views_agree :
  forall reports : list Report.t,
    Dashboard.severityData reports
    = slices (coloured "bg-green-500 text-white" reports)
             (coloured "bg-yellow-500 text-white" reports)
             (coloured "bg-red-500 text-white" reports)
    /\ list_sum (List.map Dashboard.SeverityDatum.value
                          (Dashboard.severityData reports))
       = List.length reports
    /\ Dashboard.criticalReports reports = coloured "bg-red-500 text-white" reports
    /\ (Dashboard.cityStatus reports = "Alerta Ativo"
        <-> exists r, In r reports
                      /\ Dashboard.getSeverityColor r.(Report.severity)
                         = "bg-red-500 text-white")
    /\ (Dashboard.cityStatus reports = "Monitoramento Normal"
        <-> forall r, In r reports -> ~ 4 <= r.(Report.severity))
    /\ (forall s : Q,
           (Dashboard.getSeverityLabel s = "Crítico"
            <-> Dashboard.getSeverityColor s = "bg-red-500 text-white")
           /\ (Dashboard.getSeverityLabel s = "Médio"
               <-> Dashboard.getSeverityColor s = "bg-yellow-500 text-white")
           /\ (Dashboard.getSeverityLabel s = "Baixo"
               <-> Dashboard.getSeverityColor s = "bg-green-500 text-white")).
Proof.
  intros reports.
  assert (Hg : coloured "bg-green-500 text-white" reports
               = countOf neitherHighNorMedium reports)
    by (apply countOf_ext, green_is_rest).
  assert (Hy : coloured "bg-yellow-500 text-white" reports
               = countOf statedMedium reports)
    by (apply countOf_ext, yellow_is_medium).
  assert (Hr : coloured "bg-red-500 text-white" reports
               = countOf statedHigh reports)
    by (apply countOf_ext, red_is_high).
  assert (Hd : Dashboard.severityData reports
               = slices (coloured "bg-green-500 text-white" reports)
                        (coloured "bg-yellow-500 text-white" reports)
                        (coloured "bg-red-500 text-white" reports)).
  { unfold Dashboard.severityData. rewrite severityCounts_spec, Hg, Hy, Hr.
    reflexivity. }
  assert (Hs : (0 <? Dashboard.criticalReports reports)%nat = true
               <-> exists r, In r reports /\ statedHigh r = true).
  { rewrite Nat.ltb_lt. apply (countOf_positive statedHigh). }
  repeat match goal with |- _ /\ _ => split end.
  - exact Hd.
  - rewrite Hd, slices_total, Hg, Hy, Hr. apply buckets_total.
  - rewrite Hr. reflexivity.
  - unfold Dashboard.cityStatus.
    destruct (0 <? Dashboard.criticalReports reports)%nat.
    + split; [intros _ | reflexivity].
      destruct (proj1 Hs eq_refl) as (r & Hin & Hh). exists r. split; [assumption|].
      rewrite <- red_is_high in Hh. now apply String.eqb_eq.
    + split; [discriminate|]. intros (r & Hin & Hc).
      assert (false = true); [|discriminate]. apply Hs. exists r.
      split; [assumption|]. rewrite <- red_is_high. now apply String.eqb_eq.
  - unfold Dashboard.cityStatus.
    destruct (0 <? Dashboard.criticalReports reports)%nat.
    + split; [discriminate|]. intros Hall.
      destruct (proj1 Hs eq_refl) as (r & Hin & Hh).
      apply statedHigh_true in Hh. now elim (Hall r Hin).
    + split; [intros _ | reflexivity]. intros r Hin Hh.
      assert (false = true); [|discriminate]. apply Hs. exists r.
      split; [assumption|]. now apply statedHigh_true.
  - intros s. unfold Dashboard.getSeverityLabel, Dashboard.getSeverityColor.
    destruct (Qle_bool 4 s), (Qeq_bool s 3);
      repeat split; discriminate || reflexivity.
Qed.

(* ----------------------------------------------------------------- *)
(** ** The badge of a neighbourhood *)






(* ----------------------------------------------------------------- *)
(** ** The centre of the map *)

Lemma lastReport_last (reports : list Report.t) (r : Report.t) :
  Dashboard.lastReport (reports ++ [r]) = Some r.
Proof.
  unfold Dashboard.lastReport. rewrite length_app. cbn [List.length].
  replace (List.length reports + 1 - 1)%nat with (List.length reports) by lia.
  replace (0 <? List.length reports + 1)%nat with true
    by (symmetry; apply Nat.ltb_lt; lia).
  rewrite nth_error_app2 by lia. now rewrite Nat.sub_diag.
Qed.

Lemma mapCenter_last (reports : list Report.t) (r : Report.t) :
  Dashboard.mapCenter (reports ++ [r]) = r.(Report.location).
Proof. unfold Dashboard.mapCenter. now rewrite lastReport_last. Qed.

Section MapFacts.

Variable generateContent :
  GeminiService.Prompt -> Attempt GeminiService.GenerateContentResponse.
Variable parseAiResponse : string -> Attempt AiResponse.t.
Variable parseLocation : string -> Attempt LocationExtractionResponse.t.
Variable clock : nat -> Z.

Lemma other_events_keep_reports (w : World) (e : Event) :
  finalizes w.(state) e = false ->
  (dispatch generateContent parseAiResponse parseLocation clock w e).(state).(reports)
  = w.(state).(reports).
Proof.
  intros Hf.
  destruct (runEvent_grows clock
              (handler generateContent parseAiResponse parseLocation w.(state) e) w)
    as [_ [added Hr]].
  pose proof (runEvent_count clock
                (handler generateContent parseAiResponse parseLocation w.(state) e) w)
    as Hc.
  rewrite handler_appends_count, Hf in Hc.
  fold (dispatch generateContent parseAiResponse parseLocation clock w e) in Hr, Hc.
  rewrite Hr, length_app in Hc.
  destruct added as [|r added]; cbn [List.length] in Hc; [|lia].
  now rewrite app_nil_r in Hr.
Qed.

End MapFacts.

(** X22. The map of the dashboard starts at the centre of the city and
    follows the reports: after a tap on the map picker it is centred on the
    tapped point, after a GPS position on that position, after a typed place
    on the coordinates the extraction gave; any other event leaves its centre
    where it was.  The list of the latest reports starts with the same
    report. *)
Theorem map_follows_latest_report :
  forall (generateContent :
            GeminiService.Prompt -> Attempt GeminiService.GenerateContentResponse)
         (parseAiResponse : string -> Attempt AiResponse.t)
         (parseLocation : string -> Attempt LocationExtractionResponse.t)
         (clock : nat -> Z) (w : World),
    let dispatch := dispatch generateContent parseAiResponse parseLocation clock in
    let centreAfter e := Dashboard.mapCenter (dispatch w e).(state).(reports) in
    Dashboard.mapCenter initialWorld.(state).(reports) = Dashboard.center
    /\ (forall coords, centreAfter (MapLocationSelect coords) = coords)
    /\ (forall latitude longitude,
           centreAfter (LocationRequest gps (position latitude longitude))
           = Coordinates.mk latitude longitude)
    /\ (forall text0 image,
           w.(state).(currentStep) = LOCATION_INPUT_TEXT ->
           centreAfter (SendMessage text0 image)
           = (GeminiService.extractLocationFromText generateContent parseLocation
                                                    text0)
               .(LocationExtractionResponse.coordinates))
    /\ (forall e, finalizes w.(state) e = false ->
                  centreAfter e = Dashboard.mapCenter w.(state).(reports))
    /\ (forall e r, (dispatch w e).(state).(reports) = w.(state).(reports) ++ [r] ->
                    hd_error (Dashboard.latestFirst (dispatch w e).(state).(reports))
                    = Some r
                    /\ centreAfter e = r.(Report.location)).
Proof.
  intros gc pa pl clock w. cbv zeta.
  repeat match goal with |- _ /\ _ => split end.
  - reflexivity.
  - intros coords. rewrite reports_after_map, mapCenter_last. reflexivity.
  - intros la lo. rewrite reports_after_gps, mapCenter_last. reflexivity.
  - intros text0 image Hstep.
    rewrite (reports_after_text gc pa pl clock w text0 image Hstep), mapCenter_last.
    reflexivity.
  - intros e Hf. now rewrite other_events_keep_reports.
  - intros e r Hr. rewrite Hr, mapCenter_last. split; [|reflexivity].
    unfold Dashboard.latestFirst. rewrite rev_app_distr. reflexivity.
Qed.

(** X22 on a place typed as "Barra": the map is centred on the coordinates
    the extraction gave for it. *)
Lemma map_follows_latest_report_witness :
  let w := worldAt LOCATION_INPUT_TEXT draftAnalysed in
  w.(state).(currentStep) = LOCATION_INPUT_TEXT
  /\ Dashboard.mapCenter
       (dispatch sampleTransport parseSeverity4 parseBarra sampleClock w
                 (SendMessage "Barra" None)).(state).(reports)
     = Coordinates.mk ((-130104) # 10000) ((-385329) # 10000).
Proof.
  cbv zeta. split; [reflexivity|].
  destruct (map_follows_latest_report sampleTransport parseSeverity4 parseBarra
              sampleClock (worldAt LOCATION_INPUT_TEXT draftAnalysed))
    as (_ & _ & _ & Ht & _).
  rewrite (Ht "Barra" None eq_refl). reflexivity.
Defined.

(* ================================================================= *)
(** * Properties of the chat interface *)

Lemma substring_all (s : string) : String.substring 0 (String.length s) s = s.
Proof. induction s as [|c s IH]; cbn [String.substring String.length]; congruence. Qed.

Lemma isWhite_cases (c : ascii) :
  isWhite c = true ->
  In c (List.map ascii_of_nat [9; 10; 11; 12; 13; 32]%nat).
Proof.
  unfold isWhite. intros H. apply existsb_exists in H as (x & Hx & E).
  apply Ascii.eqb_eq in E. now subst.
Qed.

(** A white space at the head of a string is taken off. *)
Lemma prefix_head_same (c : ascii) (r : string) :
  String.prefix (String c "") (String c r) = true.
Proof.
  cbn [String.prefix]. destruct (ascii_dec c c); [|contradiction].
  now destruct r.
Qed.

Lemma prefix_head_other (d c : ascii) (p r : string) :
  d <> c -> String.prefix (String d p) (String c r) = false.
Proof.
  intros H. cbn [String.prefix]. destruct (ascii_dec d c); [contradiction|reflexivity].
Qed.

Lemma strip_white (c : ascii) (r : string) :
  isWhite c = true ->
  firstSome (fun p => stripPrefix p (String c r)) whiteSpaces = Some r.
Proof.
  intros H. apply isWhite_cases in H.
  assert (E : String.substring 0 (String.length r - 0) r = r)
    by (rewrite Nat.sub_0_r; apply substring_all).
  cbn [List.map In] in H.
  let ws := eval vm_compute in whiteSpaces in change whiteSpaces with ws.
  cbn [firstSome]. unfold stripPrefix.
  repeat (destruct H as [<-|H];
          [ rewrite ?prefix_head_other by discriminate;
            rewrite prefix_head_same;
            cbn [String.length Nat.sub String.substring]; now rewrite E |]).
  contradiction.
Qed.

Lemma trimStart_blank (s : string) :
  blank s = true ->
  forall fuel, (String.length s <= fuel)%nat -> stripAll stripPrefix fuel s = "".
Proof.
  induction s as [|c r IH]; cbn [blank String.length]; intros Hb fuel Hf.
  - destruct fuel; reflexivity.
  - apply andb_true_iff in Hb as [Hc Hr].
    destruct fuel as [|fuel]; [lia|]. cbn [stripAll].
    rewrite (strip_white c r Hc). apply IH; [assumption | lia].
Qed.

(** White space alone trims to nothing. *)
Lemma trim_blank (s : string) : blank s = true -> trim s = "".
Proof.
  intros Hb. unfold trim, trimStart. rewrite (trimStart_blank s Hb) by lia.
  reflexivity.
Qed.

(** X24. The form sends nothing and stays as it is when the input is
    empty or made of spaces, tabs and line breaks only and no image is
    chosen; when the input trims to something, or an image is chosen, it
    sends the input as typed, not trimmed, with the image if there is one,
    and the form is cleared, so that a second submit sends nothing. *)
Theorem submit_needs_text_or_image :
  forall f : ChatInterface.Form,
    (blank f.(ChatInterface.input) = true ->
     truthyOption f.(ChatInterface.selectedImage) = false ->
     ChatInterface.handleSubmit f = (None, f))
    /\ (trim f.(ChatInterface.input) <> "" ->
        ChatInterface.handleSubmit f
        = (Some (f.(ChatInterface.input),
                 orOption f.(ChatInterface.selectedImage) None),
           ChatInterface.mkForm "" None))
    /\ (forall image,
           f.(ChatInterface.selectedImage) = Some image -> image <> "" ->
           ChatInterface.handleSubmit f
           = (Some (f.(ChatInterface.input), Some image),
              ChatInterface.mkForm "" None))
    /\ (forall sent f',
           ChatInterface.handleSubmit f = (Some sent, f') ->
           fst sent = f.(ChatInterface.input)
           /\ f' = ChatInterface.mkForm "" None
           /\ fst (ChatInterface.handleSubmit f') = None).
Proof.
  intros [input image]. cbn [ChatInterface.input ChatInterface.selectedImage].
  unfold ChatInterface.handleSubmit.
  cbn [ChatInterface.input ChatInterface.selectedImage].
  repeat match goal with |- _ /\ _ => split end.
  - intros Hb Hi. rewrite (trim_blank input Hb), Hi. reflexivity.
  - intros Ht. apply truthyString_true in Ht. rewrite Ht.
    cbn [orb]. unfold orOption, truthyOption.
    destruct image as [i|]; [destruct (truthyString i)|]; reflexivity.
  - intros i -> Hi. unfold truthyOption.
    apply truthyString_true in Hi. rewrite Hi.
    now rewrite orb_true_r.
  - intros sent f'.
    destruct (truthyString (trim input) || truthyOption image); [|discriminate].
    intros H. injection H as <- <-. cbn [fst]. repeat split.
Qed.

(** X24 on three spaces, and on a greeting typed between spaces. *)
Lemma submit_needs_text_or_image_witness :
  ChatInterface.handleSubmit (ChatInterface.mkForm "   " None)
  = (None, ChatInterface.mkForm "   " None)
  /\ ChatInterface.handleSubmit (ChatInterface.mkForm " oi " None)
     = (Some (" oi ", None), ChatInterface.mkForm "" None).
Proof.
  split.
  - apply (proj1 (submit_needs_text_or_image (ChatInterface.mkForm "   " None)));
      reflexivity.
  - apply (proj1 (proj2 (submit_needs_text_or_image
                           (ChatInterface.mkForm " oi " None)))).
    vm_compute. discriminate.
Defined.

(* ----------------------------------------------------------------- *)
(** ** The map picker *)

Lemma lastClick_app (actions : list ChatInterface.PickerAction)
      (a : ChatInterface.PickerAction) :
  lastClick (actions ++ [a])
  = match a with
    | ChatInterface.click c => Some c
    | ChatInterface.confirm => lastClick actions
    end.
Proof.
  induction actions as [|b actions IH]; cbn [app lastClick].
  - now destruct a.
  - rewrite IH. destruct a as [c|]; reflexivity.
Qed.

Lemma picker_app (actions : list ChatInterface.PickerAction)
      (a : ChatInterface.PickerAction) :
  ChatInterface.picker (actions ++ [a])
  = ChatInterface.pickerStep (ChatInterface.picker actions) a.
Proof. unfold ChatInterface.picker. now rewrite fold_left_app. Qed.

Lemma picker_position (actions : list ChatInterface.PickerAction) :
  fst (ChatInterface.picker actions) = lastClick actions.
Proof.
  induction actions as [|a actions IH] using rev_ind; [reflexivity|].
  rewrite picker_app, lastClick_app.
  destruct (ChatInterface.picker actions) as [position selected].
  cbn [fst] in IH. subst position.
  destruct a as [[la lo]|]; cbn [ChatInterface.pickerStep Coordinates.lat Coordinates.lng fst].
  - reflexivity.
  - now destruct (lastClick actions).
Qed.

Lemma picker_selected_clicked (actions : list ChatInterface.PickerAction)
      (c : Coordinates.t) :
  In c (snd (ChatInterface.picker actions)) -> In (ChatInterface.click c) actions.
Proof.
  induction actions as [|a actions IH] using rev_ind; [intros []|].
  rewrite picker_app. pose proof (picker_position actions) as Hp.
  destruct (ChatInterface.picker actions) as [position selected].
  cbn [fst snd] in *. rewrite in_app_iff.
  destruct a as [c'|]; cbn [ChatInterface.pickerStep snd].
  - auto.
  - destruct position as [p|]; cbn [snd]; [|auto].
    rewrite in_app_iff. intros [H|[<-|[]]]; [auto|]. left.
    clear IH. symmetry in Hp. revert Hp.
    induction actions as [|b actions IHa]; cbn [lastClick]; [discriminate|].
    destruct (lastClick actions) as [q|].
    + intros H. right. now apply IHa.
    + destruct b as [q|]; [|discriminate]. intros H. injection H as ->. now left.
Qed.

(** X25. On the map picker the position marked is that of the last click;
    the confirm button passes on that position, and nothing while the map has
    not been clicked; a click alone passes nothing on.  So every coordinate
    the picker passes on was clicked before. *)
Theorem picker_confirms_last_click :
  forall actions : list ChatInterface.PickerAction,
    let selected l := snd (ChatInterface.picker l) in
    fst (ChatInterface.picker actions) = lastClick actions
    /\ selected (actions ++ [ChatInterface.confirm])
       = selected actions
           ++ match lastClick actions with Some c => [c] | None => [] end
    /\ (forall c, selected (actions ++ [ChatInterface.click c]) = selected actions)
    /\ (forall c, selected (actions ++ [ChatInterface.click c; ChatInterface.confirm])
                  = selected actions ++ [c])
    /\ (forall c, In c (selected actions) -> In (ChatInterface.click c) actions)
    /\ (lastClick actions = None -> selected actions = []).
Proof.
  intros actions. cbv zeta.
  pose proof (picker_position actions) as Hp.
  repeat match goal with |- _ /\ _ => split end.
  - exact Hp.
  - rewrite picker_app. destruct (ChatInterface.picker actions) as [position selected].
    cbn [fst snd] in *. subst position.
    destruct (lastClick actions); cbn [ChatInterface.pickerStep snd];
      [reflexivity | now rewrite app_nil_r].
  - intros c. rewrite picker_app.
    now destruct (ChatInterface.picker actions).
  - intros [la lo].
    change (actions ++ [ChatInterface.click (Coordinates.mk la lo); ChatInterface.confirm])
      with (actions ++ [ChatInterface.click (Coordinates.mk la lo)] ++ [ChatInterface.confirm]).
    rewrite app_assoc, !picker_app.
    now destruct (ChatInterface.picker actions).
  - apply picker_selected_clicked.
  - intros Hn. destruct (snd (ChatInterface.picker actions)) as [|c l] eqn:E;
      [reflexivity|].
    assert (Hin : In (ChatInterface.click c) actions)
      by (apply picker_selected_clicked; rewrite E; now left).
    exfalso. clear - Hn Hin.
    induction actions as [|b actions IH]; [contradiction|].
    cbn [lastClick] in Hn. destruct (lastClick actions) as [q|]; [discriminate|].
    destruct Hin as [->|Hin]; [discriminate | now apply IH].
Qed.

(** X25 on a press before any click, then a click, a second click and a
    press: only the second point is passed on. *)
Lemma picker_confirms_last_click_witness :
  let p := Coordinates.mk ((-130104) # 10000) ((-385329) # 10000) in
  let q := Coordinates.mk ((-129777) # 10000) ((-385016) # 10000) in
  lastClick [ChatInterface.confirm] = None
  /\ snd (ChatInterface.picker [ChatInterface.confirm]) = []
  /\ snd (ChatInterface.picker
            ([ChatInterface.confirm; ChatInterface.click p]
               ++ [ChatInterface.click q; ChatInterface.confirm]))
     = [q].
Proof.
  cbv zeta. split; [reflexivity|]. split.
  - apply (picker_confirms_last_click [ChatInterface.confirm]). reflexivity.
  - destruct (picker_confirms_last_click
                [ChatInterface.confirm;
                 ChatInterface.click
                   (Coordinates.mk ((-130104) # 10000) ((-385329) # 10000))])
      as (_ & _ & _ & H & _).
    rewrite H. reflexivity.
Defined.

(* ================================================================= *)
(** * The ids of the messages *)

Lemma to_int_not_nil (z : Z) :
  Z.to_int z <> Decimal.Pos Decimal.Nil /\ Z.to_int z <> Decimal.Neg Decimal.Nil.
Proof.
  destruct z as [|p|p]; cbn [Z.to_int]; split; try discriminate;
    intros H; injection H as H; revert H; apply DecimalPos.Unsigned.to_uint_nonnil.
Qed.

(** Different integers have different texts. *)
Lemma toString_inj (a b : Z) : JS.toString a = JS.toString b -> a = b.
Proof.
  unfold JS.toString. intros H.
  apply (f_equal NilZero.int_of_string) in H.
  destruct (to_int_not_nil a) as [Ha Ha'], (to_int_not_nil b) as [Hb Hb'].
  rewrite !NilZero.isi in H by assumption.
  injection H as H. now apply DecimalZ.to_int_inj.
Qed.

Section StampFacts.

Variable clock : nat -> Z.

Lemma runCmd_stamped (t : nat) (c : Cmd) (w : World) (pending : list Timer) :
  stamped clock w -> stamped clock (fst (runCmd clock t c w pending)).
Proof.
  intros (n & readings & Hk & Hids & Hnd & Hlt). unfold stamped.
  destruct c; cbn [runCmd fst state messages clockReads onState];
    try (exists n, readings; repeat split; assumption).
  - exists (S n), (readings ++ [n]). repeat split.
    + rewrite Hk. lia.
    + rewrite !map_app, Hids. cbn [List.map newMessage Message.id].
      now rewrite Hk.
    + apply NoDup_app; [assumption | repeat constructor; intros [] |].
      intros i Hi [<-|[]]. rewrite Forall_forall in Hlt. specialize (Hlt _ Hi). lia.
    + apply Forall_app. split.
      * revert Hlt. apply Forall_impl. intros i Hi. lia.
      * repeat constructor.
  - exists (S n), readings. repeat split; try assumption.
    + rewrite Hk. lia.
    + revert Hlt. apply Forall_impl. intros i Hi. lia.
Qed.

Lemma runScript_stamped (t : nat) (script : list Cmd) :
  forall (w : World) (pending : list Timer),
    stamped clock w -> stamped clock (fst (runScript clock t script w pending)).
Proof.
  induction script as [|c script IH]; intros w pending Hw; cbn [runScript].
  - assumption.
  - pose proof (runCmd_stamped t c w pending Hw) as H1.
    destruct (runCmd clock t c w pending) as [w1 pending1]. cbn [fst] in H1.
    now apply IH.
Qed.

Lemma fireTimers_stamped (fuel : nat) :
  forall (pending : list Timer) (w : World),
    stamped clock w -> stamped clock (fireTimers clock fuel pending w).
Proof.
  induction fuel as [|fuel IH]; intros pending w Hw; cbn [fireTimers].
  - assumption.
  - destruct (nextTimer pending) as [[[due callback] rest]|]; [|assumption].
    pose proof (runScript_stamped due callback w rest Hw) as H1.
    destruct (runScript clock due callback w rest) as [w1 pending1].
    cbn [fst] in H1. now apply IH.
Qed.

Lemma runEvent_stamped (script : list Cmd) (w : World) :
  stamped clock w -> stamped clock (runEvent clock script w).
Proof.
  intros Hw. unfold runEvent.
  pose proof (runScript_stamped 0 script w [] Hw) as H1.
  destruct (runScript clock 0 script w []) as [w1 pending1]. cbn [fst] in H1.
  now apply fireTimers_stamped.
Qed.

Lemma stamped_NoDup (w : World) :
  idReadingsDistinct clock -> stamped clock w ->
  NoDup (List.map Message.id w.(state).(messages)).
Proof.
  intros Hd (n & readings & _ & -> & Hnd & _).
  induction Hnd as [|i readings Hi Hnd IH]; cbn [List.map]; constructor.
  - intros Hin. apply in_map_iff in Hin as (j & Hj & Hin).
    apply toString_inj, Hd in Hj. now subst.
  - assumption.
Qed.

End StampFacts.

(** X26. When no two messages are made within the same millisecond, that
    is, when the readings of the clock taken for ids are all different, the
    ids of the messages of any session are all different. *)
Theorem message_ids_distinct :
  forall (generateContent :
            GeminiService.Prompt -> Attempt GeminiService.GenerateContentResponse)
         (parseAiResponse : string -> Attempt AiResponse.t)
         (parseLocation : string -> Attempt LocationExtractionResponse.t)
         (clock : nat -> Z) (events : list Event),
    idReadingsDistinct clock ->
    NoDup (List.map Message.id
             (session generateContent parseAiResponse parseLocation clock events
                      initialWorld).(state).(messages)).
Proof.
  intros gc pa pl clock events Hd. apply (stamped_NoDup clock); [assumption|].
  assert (H0 : stamped clock initialWorld).
  { exists 0%nat, []. repeat split; constructor. }
  revert H0. generalize initialWorld.
  induction events as [|e events IH]; intros w Hw; cbn [session fold_left].
  - assumption.
  - apply IH. unfold dispatch. now apply runEvent_stamped.
Qed.

(** X26 on a whole report located on the map, with a clock that ticks once
    for every message. *)
Lemma message_ids_distinct_witness :
  idReadingsDistinct tickingClock
  /\ NoDup (List.map Message.id
              (session sampleTransport parseSeverity4 parseBarra tickingClock
                       mapSession initialWorld).(state).(messages)).
Proof.
  assert (Hd : idReadingsDistinct tickingClock).
  { intros i j. unfold tickingClock.
    rewrite !(Nat.mul_comm 2), !Nat.div_mul by discriminate. lia. }
  split; [exact Hd|].
  apply (message_ids_distinct sampleTransport parseSeverity4 parseBarra tickingClock
           mapSession Hd).
Defined.

(* ================================================================= *)
(** * The map picker closed without a point *)

Section PickerClosed.

Variable generateContent :
  GeminiService.Prompt -> Attempt GeminiService.GenerateContentResponse.
Variable parseAiResponse : string -> Attempt AiResponse.t.
Variable parseLocation : string -> Attempt LocationExtractionResponse.t.
Variable clock : nat -> Z.


End PickerClosed.


(* ================================================================= *)
(** * The ids of the reports *)

Lemma scriptKeepsId_app (a b : list Cmd) :
  scriptKeepsId (a ++ b) <-> scriptKeepsId a /\ scriptKeepsId b.
Proof.
  induction a as [|c a IH]; cbn [app scriptKeepsId fold_right].
  - tauto.
  - fold (scriptKeepsId (a ++ b)). fold (scriptKeepsId a).
    rewrite IH. tauto.
Qed.

Section FiledFacts.

Variable clock : nat -> Z.

Lemma runCmd_filed (t : nat) (c : Cmd) (w : World) (pending : list Timer) :
  keepsId c -> filed clock w -> timersKeepId pending ->
  filed clock (fst (runCmd clock t c w pending))
  /\ timersKeepId (snd (runCmd clock t c w pending)).
Proof.
  intros Hc (n & readings & Hk & Hids & Hnd & Hlt) Hp. unfold filed.
  destruct c; cbn [runCmd fst snd state reports clockReads onState];
    try (split; [exists n, readings; repeat split; assumption | assumption]).
  - split; [|assumption]. exists (S n), readings. repeat split; try assumption.
    + rewrite Hk. lia.
    + revert Hlt. apply Forall_impl. intros i Hi. lia.
  - split; [|assumption]. exists (S n), (readings ++ [n]). repeat split.
    + rewrite Hk. lia.
    + rewrite !map_app, Hids. cbn [List.map]. cbn [keepsId] in Hc.
      now rewrite Hc, Hk.
    + apply NoDup_app; [assumption | repeat constructor; intros [] |].
      intros i Hi [<-|[]]. rewrite Forall_forall in Hlt. specialize (Hlt _ Hi). lia.
    + apply Forall_app. split.
      * revert Hlt. apply Forall_impl. intros i Hi. lia.
      * repeat constructor.
  - split; [exists n, readings; repeat split; assumption|].
    apply Forall_app. split; [assumption|]. constructor; [exact Hc | constructor].
Qed.

Lemma runScript_filed (t : nat) (script : list Cmd) :
  forall (w : World) (pending : list Timer),
    scriptKeepsId script -> filed clock w -> timersKeepId pending ->
    filed clock (fst (runScript clock t script w pending))
    /\ timersKeepId (snd (runScript clock t script w pending)).
Proof.
  induction script as [|c script IH]; intros w pending Hs Hw Hp; cbn [runScript].
  - split; assumption.
  - destruct Hs as [Hc Hs].
    destruct (runCmd_filed t c w pending Hc Hw Hp) as [Hw' Hp'].
    destruct (runCmd clock t c w pending) as [w' pending'].
    now apply IH.
Qed.

Lemma nextTimer_keepId (pending : list Timer) (t : Timer) (rest : list Timer) :
  nextTimer pending = Some (t, rest) ->
  timersKeepId pending ->
  scriptKeepsId (snd t) /\ timersKeepId rest.
Proof.
  revert t rest. induction pending as [|a pending IH]; intros t rest; cbn [nextTimer].
  - discriminate.
  - intros H Hp. apply Forall_cons_iff in Hp as [Ha Hp].
    destruct (nextTimer pending) as [[t' rest']|] eqn:Hn.
    + destruct (IH _ _ eq_refl Hp) as [Ht' Hrest'].
      destruct (fst t' <? fst a)%nat; injection H as <- <-.
      * split; [assumption | now constructor].
      * split; assumption.
    + injection H as <- <-. split; assumption.
Qed.

Lemma fireTimers_filed (fuel : nat) :
  forall (pending : list Timer) (w : World),
    filed clock w -> timersKeepId pending ->
    filed clock (fireTimers clock fuel pending w).
Proof.
  induction fuel as [|fuel IH]; intros pending w Hw Hp; cbn [fireTimers].
  - assumption.
  - destruct (nextTimer pending) as [[[due callback] rest]|] eqn:Hn; [|assumption].
    destruct (nextTimer_keepId _ _ _ Hn Hp) as [Hc Hrest]. cbn [snd] in Hc.
    destruct (runScript_filed due callback w rest Hc Hw Hrest) as [Hw' Hp'].
    destruct (runScript clock due callback w rest) as [w' pending'].
    now apply IH.
Qed.

Lemma runEvent_filed (script : list Cmd) (w : World) :
  scriptKeepsId script -> filed clock w -> filed clock (runEvent clock script w).
Proof.
  intros Hs Hw. unfold runEvent.
  destruct (runScript_filed 0 script w [] Hs Hw (Forall_nil _)) as [Hw' Hp'].
  destruct (runScript clock 0 script w []) as [w' pending'].
  now apply fireTimers_filed.
Qed.

Lemma filed_NoDup (w : World) :
  idReadingsDistinct clock -> filed clock w ->
  NoDup (List.map Report.id w.(state).(reports)).
Proof.
  intros Hd (n & readings & _ & -> & Hnd & _).
  induction Hnd as [|i readings Hi Hnd IH]; cbn [List.map]; constructor.
  - intros Hin. apply in_map_iff in Hin as (j & Hj & Hin).
    apply toString_inj, Hd in Hj. now subst.
  - assumption.
Qed.

End FiledFacts.

Lemma finalizeReport_keepsId (d : Draft.t) (coords : Coordinates.t)
      (hood : option string) :
  scriptKeepsId (finalizeReport d coords hood).
Proof. cbn. repeat split. Qed.

Section IdInvariant.

Variable generateContent :
  GeminiService.Prompt -> Attempt GeminiService.GenerateContentResponse.
Variable parseAiResponse : string -> Attempt AiResponse.t.
Variable parseLocation : string -> Attempt LocationExtractionResponse.t.

Lemma handler_keepsId (s : State) (e : Event) :
  scriptKeepsId (handler generateContent parseAiResponse parseLocation s e).
Proof.
  destruct e as [|text0 image|value|method device|coords| |v]; cbn [handler].
  - unfold onMount, processBotResponse.
    destruct (_ =? _)%nat; [|exact I].
    destruct (stepEqb _ _); cbn; tauto.
  - unfold handleUserMessage.
    apply scriptKeepsId_app. split.
    { destruct image as [i|]; [destruct (truthyString i)|]; cbn; tauto. }
    apply scriptKeepsId_app. split; [cbn; tauto|].
    destruct (stepEqb _ CATEGORY_SELECTION || stepEqb _ SUBCATEGORY_SELECTION).
    { apply scriptKeepsId_app. split; [cbn; tauto|].
      apply scriptKeepsId_app. split; [|cbn; tauto].
      destruct (inferCategoryFromText _ _) as [c|]; [destruct (truthyString c)|];
        cbn; tauto. }
    destruct (stepEqb _ DESCRIPTION); [cbn; tauto|].
    destruct (stepEqb _ LOCATION_INPUT_TEXT); [|exact I].
    apply scriptKeepsId_app. split; [cbn; tauto|].
    apply scriptKeepsId_app. split; [apply finalizeReport_keepsId | cbn; tauto].
  - unfold handleQuickReply, handlePostCompletionAction.
    destruct (stepEqb _ CATEGORY_SELECTION).
    { apply scriptKeepsId_app. split; [cbn; tauto|].
      destruct (Obj.get SUB_CATEGORIES value) as [options|];
        [destruct (0 <? List.length options)%nat|]; cbn; tauto. }
    destruct (stepEqb _ SUBCATEGORY_SELECTION); [cbn; tauto|].
    destruct (stepEqb _ COMPLETED); [|exact I].
    destruct (String.eqb value "NEW_REPORT"); [cbn; tauto|].
    destruct (String.eqb value "VIEW_MAP"); cbn; tauto.
  - unfold handleLocationRequest.
    destruct method; [|cbn; tauto..].
    apply scriptKeepsId_app. split; [cbn; tauto|].
    destruct device; [cbn; tauto | | cbn; tauto].
    apply scriptKeepsId_app. split; [cbn; tauto | apply finalizeReport_keepsId].
  - unfold handleMapLocationSelect.
    apply scriptKeepsId_app. split; [cbn; tauto | apply finalizeReport_keepsId].
  - cbn. tauto.
  - cbn. tauto.
Qed.

End IdInvariant.

(** X28. When the readings of the clock taken for ids are all different,
    the ids of the reports of any session are all different: every report is
    given the text of a reading of its own. *)
Theorem report_ids_distinct :
  forall (generateContent :
            GeminiService.Prompt -> Attempt GeminiService.GenerateContentResponse)
         (parseAiResponse : string -> Attempt AiResponse.t)
         (parseLocation : string -> Attempt LocationExtractionResponse.t)
         (clock : nat -> Z) (events : list Event),
    idReadingsDistinct clock ->
    NoDup (List.map Report.id
             (session generateContent parseAiResponse parseLocation clock events
                      initialWorld).(state).(reports)).
Proof.
  intros gc pa pl clock events Hd. apply (filed_NoDup clock); [assumption|].
  assert (H0 : filed clock initialWorld).
  { exists 0%nat, []. repeat split; constructor. }
  revert H0. generalize initialWorld.
  induction events as [|e events IH]; intros w Hw; cbn [session fold_left].
  - assumption.
  - apply IH. unfold dispatch. apply runEvent_filed; [apply handler_keepsId | assumption].
Qed.

(** X28 on two reports made of one draft. *)
Lemma report_ids_distinct_witness :
  idReadingsDistinct tickingClock
  /\ List.length (session sampleTransport parseSeverity4 parseBarra tickingClock
                          twoReportSession initialWorld).(state).(reports) = 2%nat
  /\ NoDup (List.map Report.id
              (session sampleTransport parseSeverity4 parseBarra tickingClock
                       twoReportSession initialWorld).(state).(reports)).
Proof.
  assert (Hd : idReadingsDistinct tickingClock).
  { intros i j. unfold tickingClock.
    rewrite !(Nat.mul_comm 2), !Nat.div_mul by discriminate. lia. }
  split; [exact Hd|]. split; [vm_compute; reflexivity|].
  apply (report_ids_distinct sampleTransport parseSeverity4 parseBarra tickingClock
           twoReportSession Hd).
Defined.
